(** * Honeypot API: entity extraction, scam classification, persona routing,
      session tracking and callback gating (main.py)

    A shallow embedding of the core of [main.py] and the properties of its
    specification.

    Modelling conventions.
    - Python [str] values are [string]s over 7-bit ASCII; [Optional[str]] is
      [option string] ([None] is Python's [None]).
    - A Python [dict] with string keys is a [gmap string _]; [d.get(k)] is
      [d !! k] and [d.get(k, dflt)] is [default dflt (d !! k)].
    - Operations that can raise return a [result]; [Raise e] is an escaping
      Python exception.
    - External collaborators (the pickled classifier, the Gemini client, the
      wall clock, the iteration order of a Python [set]) are parameters of
      the model. *)

From Stdlib Require Import String Ascii List NArith ZArith Lia Bool DecimalString.
From stdpp Require Import base option list strings gmap sorting.

Import ListNotations.
Local Open Scope string_scope.
Local Open Scope list_scope.

Set Default Proof Using "Type".
#[local] Set Warnings "-clear-no-such-hyp".

(** ** Exceptions *)

Inductive exn :=
| AttributeError   (* method call on [None] *)
| IndexError       (* subscript out of range *)
| ExternalError.   (* failure of an external collaborator *)

Inductive result (A : Type) :=
| Ok (a : A)
| Raise (e : exn).
Arguments Ok {A} a.
Arguments Raise {A} e.

Global Instance result_ret : MRet result := fun _ a => Ok a.

Global Instance result_bind : MBind result := fun _ _ f m =>
  match m with
  | Ok a => f a
  | Raise e => Raise e
  end.

Definition is_ok {A} (m : result A) : bool :=
  match m with Ok _ => true | Raise _ => false end.

(** ** Python string primitives *)

Module Py.

Definition code (c : ascii) : N := N_of_ascii c.

Definition in_range (lo hi c : ascii) : bool :=
  (code lo <=? code c)%N && (code c <=? code hi)%N.

Definition is_digit (c : ascii) : bool := in_range "0" "9" c.
Definition is_upper (c : ascii) : bool := in_range "A" "Z" c.
Definition is_lower (c : ascii) : bool := in_range "a" "z" c.
Definition is_alpha (c : ascii) : bool := is_upper c || is_lower c.
Definition is_alnum (c : ascii) : bool := is_alpha c || is_digit c.

(** [\w] *)
Definition is_word (c : ascii) : bool := is_alnum c || Ascii.eqb c "_".

(** [\s] and [str.isspace]: TAB, LF, VT, FF, CR, FS, GS, RS, US, space. *)
Definition is_space (c : ascii) : bool :=
  let n := code c in
  ((9 <=? n)%N && (n <=? 13)%N) || ((28 <=? n)%N && (n <=? 32)%N).

Definition lower_char (c : ascii) : ascii :=
  if is_upper c then ascii_of_N (code c + 32) else c.

Definition upper_char (c : ascii) : ascii :=
  if is_lower c then ascii_of_N (code c - 32) else c.

(** [s.lower()] *)
Fixpoint lower (s : string) : string :=
  match s with
  | EmptyString => EmptyString
  | String c s' => String (lower_char c) (lower s')
  end.

(** [needle in hay] for strings *)
Fixpoint contains (needle hay : string) : bool :=
  String.prefix needle hay ||
  match hay with
  | EmptyString => false
  | String _ hay' => contains needle hay'
  end.

(** [any(k in s for k in ks)] *)
Definition any_in (ks : list string) (s : string) : bool :=
  existsb (fun k => contains k s) ks.

(** [x in xs] for a list of strings *)
Definition mem (x : string) (xs : list string) : bool :=
  existsb (String.eqb x) xs.

(** [re.sub(r'\D', '', s)] *)
Fixpoint digits_of (s : string) : string :=
  match s with
  | EmptyString => EmptyString
  | String c s' => if is_digit c then String c (digits_of s') else digits_of s'
  end.

Fixpoint lstrip (s : string) : string :=
  match s with
  | String c s' => if is_space c then lstrip s' else s
  | EmptyString => EmptyString
  end.

Fixpoint rstrip (s : string) : string :=
  match s with
  | EmptyString => EmptyString
  | String c s' =>
      match rstrip s' with
      | EmptyString => if is_space c then EmptyString else String c EmptyString
      | t => String c t
      end
  end.

(** [s.strip()] *)
Definition strip (s : string) : string := rstrip (lstrip s).

(** [s[0]]: raises [IndexError] on the empty string. *)
Definition index0 (s : string) : result string :=
  match s with
  | EmptyString => Raise IndexError
  | String c _ => Ok (String c EmptyString)
  end.

(** [s[:n]] *)
Definition take (n : nat) (s : string) : string := String.substring 0 n s.

(** [sep.join(xs)] *)
Fixpoint join (sep : string) (xs : list string) : string :=
  match xs with
  | [] => ""
  | [x] => x
  | x :: xs' => x +:+ sep +:+ join sep xs'
  end.

(** [s.split(sep)] for a one-character separator: always at least one part. *)
Fixpoint split (sep : ascii) (s : string) : list string :=
  match s with
  | EmptyString => [""]
  | String c s' =>
      if Ascii.eqb c sep then "" :: split sep s'
      else match split sep s' with
           | p :: ps => String c p :: ps
           | [] => [String c ""]
           end
  end.

(** [str(n)] for a non-negative integer *)
Definition str_of_nat (n : nat) : string :=
  NilEmpty.string_of_uint (Nat.to_uint n).

(** [x or ""] for an optional string *)
Definition or_empty (o : option string) : string := default "" o.

(** Truthiness of an optional string: [None] and [""] are falsy. *)
Definition truthy_str (o : option string) : bool :=
  match o with
  | Some (String _ _) => true
  | _ => false
  end.

(** Truthiness of [d.get(k)] for a list value. *)
Definition truthy_list {A} (o : option (list A)) : bool :=
  match o with
  | Some (_ :: _) => true
  | _ => false
  end.

End Py.

(** ** A backtracking matcher for the subset of [re] used by the extractor *)

Module Re.

Inductive re :=
| Emp                                   (* empty pattern *)
| Cls (p : ascii -> bool)               (* one character of a class *)
| Cat (r1 r2 : re)
| Alt (r1 r2 : re)                      (* r1|r2, left alternative first *)
| Rep (r : re) (lo : nat) (hi : nat)    (* greedy r{lo,hi} *)
| Star (r : re) (lo : nat)              (* greedy r{lo,} *)
| Bnd                                   (* \b *)
| Grp (r : re).                         (* capturing group *)

Definition Lit (c : ascii) : re := Cls (Ascii.eqb c).

Fixpoint Str (s : string) : re :=
  match s with
  | EmptyString => Emp
  | String c EmptyString => Lit c
  | String c s' => Cat (Lit c) (Str s')
  end.

Fixpoint alts (rs : list re) : re :=
  match rs with
  | [] => Emp
  | [r] => r
  | r :: rs' => Alt r (alts rs')
  end.

Fixpoint cats (rs : list re) : re :=
  match rs with
  | [] => Emp
  | [r] => r
  | r :: rs' => Cat r (cats rs')
  end.

Definition Opt (r : re) : re := Rep r 0 1.
Definition Plus (r : re) : re := Star r 1.

Fixpoint has_group (r : re) : bool :=
  match r with
  | Grp _ => true
  | Cat a b | Alt a b => has_group a || has_group b
  | Rep a _ _ | Star a _ => has_group a
  | _ => false
  end.

(** Matcher state: the text before the cursor (reversed), the text after it
    and the last capture of the group. *)
Record mstate := MState {
  before : list ascii;
  after : list ascii;
  capture : option (list ascii)
}.

Definition at_boundary (s : mstate) : bool :=
  let l := match before s with c :: _ => Py.is_word c | [] => false end in
  let r := match after s with c :: _ => Py.is_word c | [] => false end in
  xorb l r.

Definition class_test (ic : bool) (p : ascii -> bool) (c : ascii) : bool :=
  p c || (ic && (p (Py.lower_char c) || p (Py.upper_char c))).

(** [run ic r k s]: match [r] at [s] and continue with [k]; alternatives are
    explored in priority order and the first success is returned. *)
Fixpoint run (ic : bool) (r : re) (k : mstate -> option mstate) (s : mstate)
  : option mstate :=
  match r with
  | Emp => k s
  | Cls p =>
      match after s with
      | c :: rest =>
          if class_test ic p c
          then k (MState (c :: before s) rest (capture s))
          else None
      | [] => None
      end
  | Cat r1 r2 => run ic r1 (run ic r2 k) s
  | Alt r1 r2 =>
      match run ic r1 k s with
      | Some s' => Some s'
      | None => run ic r2 k s
      end
  | Rep r' lo hi =>
      (fix loop (n lo : nat) (s : mstate) {struct n} : option mstate :=
         match lo with
         | S lo' =>
             match n with
             | S n' => run ic r' (loop n' lo') s
             | O => None
             end
         | O =>
             match n with
             | S n' =>
                 match run ic r' (loop n' O) s with
                 | Some s' => Some s'
                 | None => k s
                 end
             | O => k s
             end
         end) hi lo s
  | Star r' lo =>
      (fix loop (n lo : nat) (s : mstate) {struct n} : option mstate :=
         match lo with
         | S lo' =>
             match n with
             | S n' => run ic r' (loop n' lo') s
             | O => None
             end
         | O =>
             match n with
             | S n' =>
                 match run ic r' (loop n' O) s with
                 | Some s' => Some s'
                 | None => k s
                 end
             | O => k s
             end
         end) (length (after s)) lo s
  | Bnd => if at_boundary s then k s else None
  | Grp r' =>
      run ic r'
        (fun s' =>
           let n := (length (before s') - length (before s))%nat in
           k (MState (before s') (after s')
                (Some (rev (firstn n (before s')))))) s
  end.

Definition match_at (ic : bool) (r : re) (s : mstate) : option mstate :=
  run ic r Some (MState (before s) (after s) None).

(** What [re.findall] reports for one match: the group when the pattern has
    one (empty if it took no part in the match), otherwise the whole match. *)
Definition report (r : re) (s s' : mstate) : string :=
  if has_group r then
    string_of_list_ascii (default [] (capture s'))
  else
    string_of_list_ascii
      (rev (firstn (length (before s') - length (before s)) (before s'))).

Definition advance (s : mstate) : option mstate :=
  match after s with
  | c :: rest => Some (MState (c :: before s) rest None)
  | [] => None
  end.

(** Scan left to right for non-overlapping matches. *)
Fixpoint scan (fuel : nat) (ic : bool) (r : re) (s : mstate) : list string :=
  match fuel with
  | O => []
  | S fuel' =>
      match match_at ic r s with
      | Some s' =>
          report r s s' ::
          (if (length (after s') <? length (after s))%nat
           then scan fuel' ic r (MState (before s') (after s') None)
           else match advance s with
                | Some s1 => scan fuel' ic r s1
                | None => []
                end)
      | None =>
          match advance s with
          | Some s1 => scan fuel' ic r s1
          | None => []
          end
      end
  end.

(** [re.findall(pattern, text)] and [re.findall(pattern, text, re.IGNORECASE)] *)
Definition findall (ic : bool) (r : re) (text : string) : list string :=
  let cs := list_ascii_of_string text in
  scan (S (length cs)) ic r (MState [] cs None).

End Re.

(** ** Python sets of strings and [sorted] *)

(** The order in which [list(set(xs))] enumerates a set is not fixed by the
    language (it follows the per-process string hashes); it is a parameter of
    the model.  Every such order lists each element of [xs] exactly once. *)
Class SetOrder := {
  set_list : list string -> list string;
  set_list_NoDup : forall xs, NoDup (set_list xs);
  set_list_elem : forall xs x, x ∈ set_list xs <-> x ∈ xs
}.

(** Order of [str] comparison: lexicographic on code points. *)
Definition str_le (a b : string) : Prop := String.leb a b = true.

Global Instance str_le_dec a b : Decision (str_le a b).
Proof. unfold str_le. apply _. Defined.

(** [sorted(xs)] *)
Definition sorted (xs : list string) : list string := merge_sort str_le xs.

(** One legal enumeration order: the elements in list order, each at its
    last occurrence. *)
Definition list_order : SetOrder :=
  {| set_list := remove_dups;
     set_list_NoDup := NoDup_remove_dups;
     set_list_elem := fun xs x => elem_of_remove_dups xs x |}.

(** ** The patterns of [extract_entities] *)

Module Pat.
Import Re.

Definition any_of (s : string) (c : ascii) : bool :=
  existsb (Ascii.eqb c) (list_ascii_of_string s).

Definition words (l : list string) : re := alts (map Str l).

Definition sep_dash_space : re := Cls (fun c => any_of "-" c || Py.is_space c).

Definition digit : re := Cls Py.is_digit.

(** [[A-Za-z0-9._%+-]] *)
Definition email_local (c : ascii) : bool := Py.is_alnum c || any_of "._%+-" c.
(** [[A-Za-z0-9.-]] *)
Definition email_domain (c : ascii) : bool := Py.is_alnum c || any_of ".-" c.
(** [[A-Z|a-z]] *)
Definition email_tld (c : ascii) : bool := Py.is_alpha c || any_of "|" c.

Definition email_pattern : re :=
  cats [Bnd; Plus (Cls email_local); Lit "@"; Plus (Cls email_domain);
        Lit "."; Star (Cls email_tld) 2; Bnd].

(** [[a-zA-Z0-9.\-_]] *)
Definition upi_local (c : ascii) : bool := Py.is_alnum c || any_of ".-_" c.

Definition upi_providers : list string :=
  ["oksbi"; "okaxis"; "okhdfcbank"; "okicici"; "okbob"; "oksbi"; "paytm";
   "phonepe"; "ybl"; "paypal"; "okbiz"; "upi"; "payzapp"; "bms"; "dmrc";
   "ola"; "swiggy"; "zomato"; "amazon"; "google"; "okhdfcbank"; "sbi";
   "axis"; "icici"; "hdfc"; "pnb"; "bob"; "kotak"; "idfc"; "yesbank";
   "indus"; "kotak"; "union"; "canara"; "bandhan"; "federal"; "southindian";
   "karur"; "cityunion"; "indianoverseas"; "saraswat"; "abhyuday"; "apnas";
   "barodampay"; "cmsidfc"; "equitas"; "esaf"; "finobank"; "hsbc"; "jupiter";
   "kbl"; "kmb"; "nsdl"; "pnb"; "purvanchal"; "rajasthan"; "tmb"; "uco";
   "ujjivan"; "union"; "utbi"].

(** The provider alternation is a capturing group. *)
Definition upi_pattern : re :=
  cats [Rep (Cls upi_local) 2 256; Lit "@"; Grp (words upi_providers)].

Definition upi_pattern_broad : re :=
  cats [Rep (Cls upi_local) 2 256; Lit "@"; Rep (Cls Py.is_alpha) 2 64].

(** [[-a-zA-Z0-9@:%._\+~#=]] *)
Definition url_host (c : ascii) : bool := Py.is_alnum c || any_of "-@:%._+~#=" c.
(** [[a-zA-Z0-9()]] *)
Definition url_tld (c : ascii) : bool := Py.is_alnum c || any_of "()" c.
(** [[-a-zA-Z0-9()@:%_\+.~#?&/=]] *)
Definition url_tail (c : ascii) : bool :=
  Py.is_alnum c || any_of "-()@:%_+.~#?&/=" c.

Definition url_pattern : re :=
  cats [alts [cats [Str "http"; Opt (Lit "s"); Str "://"];
              Str "onion://"; Str "www."];
        Rep (Cls url_host) 1 256; Lit "."; Rep (Cls url_tld) 1 6; Bnd;
        Star (Cls url_tail) 0].

Definition phone_pattern_indian : re :=
  cats [Opt (Cat (Str "+91") (Opt sep_dash_space)); Bnd;
        Cls (Py.in_range "6" "9"); Rep digit 9 9; Bnd].

Definition phone_pattern_us : re :=
  cats [Str "+1"; Opt sep_dash_space; Opt (Lit "("); Rep digit 3 3;
        Opt (Lit ")"); Opt sep_dash_space; Rep digit 3 3; Opt sep_dash_space;
        Rep digit 4 4].

Definition phone_pattern_tollfree : re :=
  cats [Opt (Cat (Opt (Lit "1")) (Opt sep_dash_space)); Str "800";
        Opt sep_dash_space; Rep digit 3 3; Opt sep_dash_space; Rep digit 4 4].

Definition phone_intl : re :=
  cats [Lit "+"; Rep digit 1 3; Opt sep_dash_space; Rep digit 6 12].

Definition bank_account_pattern : re := cats [Bnd; Rep digit 9 18; Bnd].

Definition credit_card_pattern : re :=
  Alt (cats [Bnd; Rep (Cat (Rep digit 4 4) (Opt sep_dash_space)) 3 3;
             Rep digit 4 4; Bnd])
      (cats [Bnd; Rep digit 16 16; Bnd]).

(** [[a-km-zA-HJ-NP-Z1-9]] *)
Definition base58 (c : ascii) : bool :=
  Py.in_range "a" "k" c || Py.in_range "m" "z" c || Py.in_range "A" "H" c ||
  Py.in_range "J" "N" c || Py.in_range "P" "Z" c || Py.in_range "1" "9" c.
(** [[a-zA-HJ-NP-Z0-9]] *)
Definition bech32 (c : ascii) : bool :=
  Py.is_lower c || Py.in_range "A" "H" c || Py.in_range "J" "N" c ||
  Py.in_range "P" "Z" c || Py.is_digit c.

Definition bitcoin_pattern_legacy : re :=
  cats [Bnd; Cls (any_of "13"); Rep (Cls base58) 25 34; Bnd].

Definition bitcoin_pattern_bech32 : re :=
  cats [Bnd; Str "bc1"; Rep (Cls bech32) 39 59; Bnd].

Definition telegram_pattern : re :=
  cats [Lit "@"; Rep (Cls Py.is_word) 3 32; Bnd].

Definition tracking_pattern : re :=
  cats [Bnd; words ["DH"; "AMZ"; "UPS"; "FEDEX"; "1Z"];
        Star sep_dash_space 0; Rep digit 6 20; Bnd].

(** [[A-Z0-9]] *)
Definition upper_digit (c : ascii) : bool := Py.is_upper c || Py.is_digit c.

Definition id_pattern : re :=
  cats [Bnd;
        words ["TXN"; "ORD"; "ID"; "REF"; "CASE"; "EMP"; "CUS"; "EXT"; "SBI";
               "AMZ"; "WIN"; "CB"; "LOAN"; "KYC"; "FRD"; "BILL"];
        Opt sep_dash_space; Rep (Cls upper_digit) 4 20; Bnd].

Definition aadhar_pattern : re :=
  cats [Bnd; Rep digit 4 4; Opt (Cls Py.is_space); Rep digit 4 4;
        Opt (Cls Py.is_space); Rep digit 4 4; Bnd].

Definition pan_pattern : re :=
  cats [Bnd; Rep (Cls Py.is_upper) 5 5; Rep digit 4 4;
        Rep (Cls Py.is_upper) 1 1; Bnd].

Definition ifsc_pattern : re :=
  cats [Bnd; Rep (Cls Py.is_upper) 4 4; Lit "0"; Rep (Cls upper_digit) 6 6;
        Bnd].

Definition order_pattern : re :=
  cats [Bnd;
        alts [Str "ORDER"; Str "ORDERID";
              cats [Str "ORDER"; Star (Cls Py.is_space) 0; Str "NO"];
              Str "ORDER#"; Str "OID"];
        Star (Cls (fun c => Py.is_space c || any_of "#-" c)) 0;
        Rep (Cls upper_digit) 6 20; Bnd].

End Pat.

(** ** [extract_entities] *)

Definition suspicious_keywords_list : list string :=
  ["urgent"; "verify"; "block"; "suspend"; "kyc"; "pan"; "aadhar";
   "win"; "lottery"; "expired"; "otp"; "pin"; "cvv"; "expiry"; "code";
   "cbi"; "police"; "customs"; "drugs"; "seized"; "arrest"; "warrant";
   "electricity"; "bill"; "disconnect"; "prepaid"; "task"; "cashback";
   "account"; "compromised"; "fraud"; "unauthorized"; "transaction";
   "claim"; "prize"; "winner"; "selected"; "lucky"; "offer"; "limited"].

(** The prefix test [is_valid_cc] on the digits of a candidate. *)
Definition is_valid_cc (digits : string) : result bool :=
  first_digit ← Py.index0 digits;
  let first_two := Py.take 2 digits in
  mret (String.eqb first_digit "4"
        || String.eqb first_digit "5"
        || Py.mem first_two ["34"; "37"; "65"]
        || Py.mem first_two ["60"; "64"]
        || String.eqb (Py.take 4 digits) "6011").

(** Body of the loop over [credit_cards]: is [cc] appended? *)
Definition accept_credit_card (cc : string) : result bool :=
  let digits := Py.digits_of cc in
  if (String.length digits =? 16)%nat then
    ok ← is_valid_cc digits;
    mret (ok && negb (String.eqb digits "0000000000000000"))
  else mret false.

(** [for cc in credit_cards: ...] with accumulator [valid_credit_cards]. *)
Fixpoint credit_card_loop (ccs valid : list string) : result (list string) :=
  match ccs with
  | [] => mret valid
  | cc :: rest =>
      accept_credit_card cc ≫= λ keep : bool,
      credit_card_loop rest (if keep then valid ++ [cc] else valid)
  end.

(** The normalised form of a phone match. *)
Definition normalize_phone (p : string) : result string :=
  let norm := Py.digits_of p in
  if (String.length norm =? 10)%nat then
    d ← Py.index0 norm;
    mret (if Py.contains d "6789" then "91" +:+ norm else norm)
  else mret norm.

(** [for p in all_phones: ...] with accumulators [clean_phones] and
    [seen_phones]. *)
Fixpoint phone_loop (ps clean : list string) (seen : gset string)
  : result (list string * gset string) :=
  match ps with
  | [] => mret (clean, seen)
  | p :: rest =>
      norm ← normalize_phone p;
      if negb (bool_decide (norm ∈ seen)) && (10 <=? String.length norm)%nat
      then phone_loop rest (clean ++ [Py.strip p]) ({[norm]} ∪ seen)
      else phone_loop rest clean seen
  end.

(** Inner loop of the bank filter: does [b] overlap a recognised phone? *)
Definition is_phone (b : string) (clean_phones : list string) : bool :=
  existsb (fun phone =>
             let phone_digits := Py.digits_of phone in
             Py.contains b phone_digits || Py.contains phone_digits b)
          clean_phones.

(** [for b in banks_raw: ...] with accumulator [clean_banks]. *)
Fixpoint bank_loop (bs clean_banks clean_phones : list string)
    (seen : gset string) : list string :=
  match bs with
  | [] => clean_banks
  | b :: rest =>
      if (String.length b =? 12)%nat then
        bank_loop rest clean_banks clean_phones seen
      else if negb (is_phone b clean_phones) && negb (bool_decide (b ∈ seen))
      then bank_loop rest (clean_banks ++ [b]) clean_phones seen
      else bank_loop rest clean_banks clean_phones seen
  end.

(** [all_phones]: the matches of the four phone patterns, concatenated. *)
Definition all_phones (text : string) : list string :=
  let phones_indian := Re.findall false Pat.phone_pattern_indian text in
  let phones_us := Re.findall false Pat.phone_pattern_us text in
  let phones_tollfree := Re.findall false Pat.phone_pattern_tollfree text in
  let phones_intl := Re.findall false Pat.phone_intl text in
  phones_indian ++ phones_us ++ phones_tollfree ++ phones_intl.

Section Extract.
Context `{SetOrder}.

(** The remaining searches, the bank filter and the returned dictionary,
    given the results of the credit-card loop and of the phone loop. *)
Definition entity_dict (text : string)
    (valid_credit_cards clean_phones : list string) (seen_phones : gset string)
  : gmap string (list string) :=
  let emails := Re.findall false Pat.email_pattern text in
  let upis := Re.findall true Pat.upi_pattern text in
  let upis :=
    match upis with
    | [] => Re.findall false Pat.upi_pattern_broad text
    | _ => upis
    end in
  let urls := Re.findall true Pat.url_pattern text in
  let bitcoins :=
    Re.findall false Pat.bitcoin_pattern_legacy text
    ++ Re.findall false Pat.bitcoin_pattern_bech32 text in
  let telegrams := Re.findall false Pat.telegram_pattern text in
  let trackings := Re.findall true Pat.tracking_pattern text in
  let ids_found := Re.findall true Pat.id_pattern text in
  let orders := Re.findall true Pat.order_pattern text in
  let aadhars := Re.findall false Pat.aadhar_pattern text in
  let pans := Re.findall false Pat.pan_pattern text in
  let ifscs := Re.findall false Pat.ifsc_pattern text in
  let banks_raw := Re.findall false Pat.bank_account_pattern text in
  let clean_banks := bank_loop banks_raw [] clean_phones seen_phones in
  let found_keywords :=
    set_list (filter (fun word => Py.contains word (Py.lower text) = true)
                     suspicious_keywords_list) in
  list_to_map
    [("phoneNumbers", sorted (set_list clean_phones));
     ("bankAccounts", sorted (set_list clean_banks));
     ("upiIds", sorted (set_list upis));
     ("phishingLinks", sorted (set_list urls));
     ("emailAddresses", sorted (set_list emails));
     ("creditCards", sorted (set_list valid_credit_cards));
     ("bitcoinAddresses", sorted (set_list bitcoins));
     ("telegramIds", sorted (set_list telegrams));
     ("trackingNumbers", sorted (set_list trackings));
     ("ids", sorted (set_list (ids_found ++ orders)));
     ("aadharNumbers", sorted (set_list aadhars));
     ("panNumbers", sorted (set_list pans));
     ("ifscCodes", sorted (set_list ifscs));
     ("suspiciousKeywords", found_keywords)].

Definition extract_entities (text : option string)
  : result (gmap string (list string)) :=
  match text with
  | None | Some "" => mret ∅
  | Some text =>
      let credit_cards := Re.findall false Pat.credit_card_pattern text in
      valid_credit_cards ← credit_card_loop credit_cards [];
      '(clean_phones, seen_phones) ← phone_loop (all_phones text) [] ∅;
      mret (entity_dict text valid_credit_cards clean_phones seen_phones)
  end.

End Extract.

(** ** Data model *)

Record Message := {
  sender : string;
  text : option string;
  audioBase64 : option string;
  timestamp : Z
}.

Record AnalyzeRequest := {
  sessionId : string;
  message : Message;
  conversationHistory : list Message
}.

(** One entry of the global [session_state] dictionary. *)
Record SessionState := {
  persona : string;
  language : string;
  start_time : Z;
  questions_asked : nat;
  red_flags : list string;
  elicitation_attempts : nat;
  turn_count : nat
}.

(** The JSON body posted to the callback URL.  [confidenceLevel] is kept in
    hundredths. *)
Record CallbackPayload := {
  cb_sessionId : string;
  cb_scamDetected : bool;
  cb_totalMessagesExchanged : nat;
  cb_engagementDurationSeconds : Z;
  cb_extractedIntelligence : gmap string (list string);
  cb_agentNotes : string;
  cb_scamType : string;
  cb_confidenceLevel : nat
}.

(** The arguments handed to [background_tasks.add_task]. *)
Record CallbackTask := {
  task_session_id : string;
  task_history : list Message;
  task_current_msg : Message;
  task_scam_detected : bool;
  task_entities : gmap string (list string)
}.

Inductive HttpResponse :=
| Success (reply : string)       (* {"status": "success", "reply": reply} *)
| Http500 (detail : exn).        (* HTTPException(status_code=500) *)

(** ** External collaborators *)

(** The Gemini client: the routing call of [select_persona_and_language]
    (fixed routing prompt plus the message) and the chat call of
    [generate_agent_reply]; each yields [response.text] or raises. *)
Record Gemini := {
  route_call : option string -> result string;
  chat_call : list Message -> option string -> result string
}.

(** The process globals set at startup. *)
Record Globals := {
  feature : Type;
  tfidf_vectorizer : option (option string -> result feature);
  scam_classifier : option (feature -> result string);  (* str(prediction) *)
  gemini_model : option Gemini
}.

(** No pickled model and no API key: the keyword and offline tiers only. *)
Definition offline : Globals :=
  {| feature := unit; tfidf_vectorizer := None; scam_classifier := None;
     gemini_model := None |}.

(** ** [predict_scam] *)

Definition scam_keywords : list string :=
  ["bank"; "verify"; "blocked"; "lottery"; "winner"; "prize"; "urgent";
   "credit card"; "kyc"; "update"; "otp"; "pin"; "cvv"; "expiry";
   "cbi"; "police"; "customs"; "narcotics"; "seized"; "arrest"; "warrant";
   "electricity"; "disconnect"; "meter";
   "job"; "task"; "prepaid"; "youtube"; "review";
   "fedex"; "courier"; "parcel"].

(** Tier 1: the statistical model, when both artefacts are loaded; any
    exception counts as no verdict. *)
Definition ml_tier (G : Globals) (text : option string) : bool :=
  match scam_classifier G, tfidf_vectorizer G with
  | Some predict, Some transform =>
      match transform text ≫= predict with
      | Ok prediction => Py.mem (Py.lower prediction) ["scam"; "spam"; "fraud"; "1"]
      | Raise _ => false
      end
  | _, _ => false
  end.

(** Tier 2: [any(keyword in text.lower() for keyword in keywords)]. *)
Definition keyword_tier (text : option string) : result bool :=
  match text with
  | None => Raise AttributeError
  | Some t => Ok (Py.any_in scam_keywords (Py.lower t))
  end.

Definition predict_scam (G : Globals) (text : option string) : result bool :=
  if ml_tier G text then Ok true else keyword_tier text.

(** ** Persona routing *)

(** [PERSONAS.keys()] *)
Definition PERSONAS_keys : list string :=
  ["grandma"; "student"; "skeptic"; "parent"].

Definition hinglish_markers : list string :=
  ["bhai"; "bha"; "haan"; "haanji"; "kya"; "kyu"; "nahi"; "nahin"; "sir ji";
   "beta"; "paise"; "paisa"; "upi"; "karo"; "kar do"; "jaldi"].

Definition authority_markers : list string :=
  ["cbi"; "police"; "cyber"; "arrest"; "court"; "customs"; "narcotics";
   "parcel"; "legal"; "section"].

Definition money_markers : list string :=
  ["lottery"; "loan"; "job"; "offer"; "task"; "telegram"; "earn"; "salary";
   "reward"].

Definition bank_markers : list string :=
  ["kyc"; "bank"; "account"; "otp"; "blocked"; "freeze"; "pan"; "aadhar";
   "ifsc"; "electricity"; "bill"; "anydesk"; "teamviewer"; "virus"].

Definition _heuristic_persona_and_language (text : option string)
  : string * string :=
  let lower := Py.lower (Py.or_empty text) in
  let language :=
    if Py.any_in hinglish_markers lower then "hinglish" else "english" in
  if Py.any_in authority_markers lower then ("skeptic", language)
  else if Py.any_in money_markers lower then ("student", language)
  else if Py.any_in bank_markers lower then ("grandma", language)
  else ("parent", language).

(** [for p in PERSONAS.keys(): if p in parts[0]: selected_persona = p; break] *)
Fixpoint first_persona_in (keys : list string) (part dflt : string) : string :=
  match keys with
  | [] => dflt
  | p :: keys' => if Py.contains p part then p else first_persona_in keys' part dflt
  end.

(** Parsing of the routing response, after [strip().lower()]. *)
Definition parse_routing (response_text : string) : string * string :=
  let result := Py.lower (Py.strip response_text) in
  let parts := Py.split "|" result in
  let selected_persona :=
    match parts with
    | part0 :: _ => first_persona_in PERSONAS_keys part0 "grandma"
    | [] => "grandma"
    end in
  let selected_language :=
    match parts with
    | _ :: part1 :: _ =>
        if Py.contains "hinglish" part1 || Py.contains "hindi" part1
        then "hinglish" else "english"
    | _ => "english"
    end in
  (selected_persona, selected_language).

Definition select_persona_and_language (G : Globals) (text : option string)
  : string * string :=
  match gemini_model G with
  | None => _heuristic_persona_and_language text
  | Some gemini =>
      match route_call gemini text with
      | Ok response_text => parse_routing response_text
      | Raise _ => _heuristic_persona_and_language text
      end
  end.

(** ** Reply generation *)

Definition _offline_agent_reply (known_entities : gmap string (list string))
    (persona_key language : string) : string :=
  let missing :=
    (if Py.truthy_list (known_entities !! "bankAccounts") then [] else ["bank account"])
    ++ (if Py.truthy_list (known_entities !! "upiIds") then [] else ["UPI ID"])
    ++ (if Py.truthy_list (known_entities !! "phishingLinks") then [] else ["link"]) in
  let ask :=
    match missing with
    | [] => "details"
    | _ => Py.join " and " (firstn 2 missing)
    end in
  if String.eqb language "hinglish" then
    if String.eqb persona_key "student" then
      "Bhai mujhe samajh nahi aaya. " +:+ ask +:+ " bhejo na, phir main dekhta hoon."
    else if String.eqb persona_key "skeptic" then
      "Sir, pehle aap apna official ID aur " +:+ ask +:+ " share karo. Company policy hai."
    else if String.eqb persona_key "parent" then
      "Arre ruk jao, bacche chillaa rahe hain. " +:+ ask +:+ " dobara bhej do."
    else
      "Beta, mujhe phone me nahi mil raha. " +:+ ask +:+ " ek baar phir bhej do."
  else
    if String.eqb persona_key "student" then
      "Bro I'm interested but I have 0 balance. Send your " +:+ ask +:+ " and explain again."
    else if String.eqb persona_key "skeptic" then
      "Before we proceed, share your official authorization and the " +:+ ask +:+ "."
    else if String.eqb persona_key "parent" then
      "Hold on—I'm busy right now. Can you resend the " +:+ ask +:+ "?"
    else
      "I am not good with these things. Please send the " +:+ ask +:+ " again.".

Definition generate_agent_reply (G : Globals) (history : list Message)
    (current_message : option string)
    (known_entities : gmap string (list string))
    (persona_key language : string) : string :=
  match gemini_model G with
  | None => _offline_agent_reply known_entities persona_key language
  | Some gemini =>
      match chat_call gemini history current_message with
      | Ok response_text => Py.strip response_text
      | Raise _ => "I didn't catch that. Could you say it again?"
      end
  end.

(** ** Scam category *)

(** The [if]/[elif] cascade of [check_and_send_callback] over the lower-cased
    text of the current message. *)
Definition infer_scam_type (current_text : option string) : string :=
  let full_text := Py.lower (Py.or_empty current_text) in
  if Py.any_in ["bitcoin"; "crypto"; "blackmail"; "video"; "extortion"; "private videos"] full_text
  then "Sextortion"
  else if Py.any_in ["police"; "cbi"; "arrest"; "warrant"; "court"; "narcotics"; "trafficking"; "digital arrest"] full_text
  then "Digital Arrest"
  else if Py.any_in ["parcel"; "courier"; "dhl"; "customs"; "duty"; "held at customs"] full_text
  then "Courier Scam"
  else if Py.any_in ["electricity"; "power"; "bill"; "disconnect"; "unpaid bill"; "power cut"] full_text
  then "Utility Scam"
  else if Py.any_in ["kyc"; "aadhaar"; "pan card"; "update kyc"; "kyc update"] full_text
  then "KYC Scam"
  else if Py.any_in ["job"; "hiring"; "work from home"; "salary"; "earn money"; "employment"; "urgent hiring"] full_text
  then "Job Scam"
  else if Py.any_in ["loan"; "credit"; "loan approved"; "pre-approved"; "instant loan"; "emi"] full_text
  then "Loan Scam"
  else if Py.any_in ["upi"; "cashback"; "paytm"; "phonepe"; "google pay"; "upi id"] full_text
  then "UPI Fraud"
  else if Py.any_in ["lottery"; "winner"; "prize"; "won"; "lucky draw"; "congratulations you won"] full_text
  then "Lottery Scam"
  else if Py.any_in ["bank"; "sbi"; "account compromised"; "account blocked"; "share otp"; "unauthorized transaction"] full_text
  then "Bank Fraud"
  else if Py.any_in ["amazon"; "flipkart"; "order confirmed"; "delivery"; "click here"; "claim prize"; "iphone won"] full_text
  then "Phishing"
  else "Unknown".

(** ** [check_and_send_callback] *)

Definition CRITICAL_KEYS : list string :=
  ["bankAccounts"; "upiIds"; "phishingLinks"].

(** [bool(entities.get("bankAccounts") or entities.get("upiIds") or
    entities.get("phishingLinks"))] *)
Definition has_critical_info (entities : gmap string (list string)) : bool :=
  Py.truthy_list (entities !! "bankAccounts")
  || Py.truthy_list (entities !! "upiIds")
  || Py.truthy_list (entities !! "phishingLinks").

(** [sum(len(v) for v in entities.values())] *)
Definition entity_count (entities : gmap string (list string)) : nat :=
  map_fold (fun _ v acc => (length v + acc)%nat) 0%nat entities.

(** [current text + " " + " ".join(history texts)] *)
Definition conversation_text (current : Message) (history : list Message)
  : string :=
  Py.or_empty (text current) +:+ " "
  +:+ Py.join " " (map (fun m => Py.or_empty (text m)) history).

Definition get_list (d : gmap string (list string)) (k : string) : list string :=
  default [] (d !! k).

Section Service.
Context `{SetOrder}.
Variable G : Globals.

(** The body posted to the callback URL, or [None] when the gate stays
    closed.  [now] is the clock reading when the background task runs and
    [session_state] the dictionary as it is then. *)
Definition check_and_send_callback (now : Z)
    (session_state : gmap string SessionState) (task : CallbackTask)
  : option CallbackPayload :=
  let session_id := task_session_id task in
  let history := task_history task in
  let current_msg := task_current_msg task in
  let total_messages := S (length history) in
  let is_scam := task_scam_detected task in
  let entities := task_entities task in
  let critical := has_critical_info entities in
  let state := session_state !! session_id in
  let started := from_option start_time now state in
  let engagement_duration := (now - started)%Z in
  let engagement_duration :=
    if (engagement_duration <? 180)%Z
    then (180 + Z.of_nat total_messages * 5)%Z
    else engagement_duration in
  let count := entity_count entities in
  let confidence_level :=
    if (0 <? count)%nat then Nat.min 95 (70 + count * 5) else 85%nat in
  let scam_type := infer_scam_type (text current_msg) in
  let asked := from_option questions_asked (total_messages / 2)%nat state in
  let flags :=
    from_option red_flags ["Urgency"; "OTP Request"; "Suspicious Link"] state in
  if is_scam && ((4 <=? total_messages)%nat || critical) then
    match extract_entities (Some (conversation_text current_msg history)) with
    | Raise _ => None
    | Ok aggregated_entities =>
        let extracted_intel : gmap string (list string) :=
          list_to_map
            (map (fun k => (k, get_list aggregated_entities k))
                 ["phoneNumbers"; "bankAccounts"; "upiIds"; "phishingLinks";
                  "emailAddresses"; "creditCards"; "bitcoinAddresses";
                  "telegramIds"; "trackingNumbers"; "ids"]) in
        let persona_used := from_option persona "Unknown" state in
        let lang_used := from_option language "Unknown" state in
        let count_of k := Py.str_of_nat (length (get_list extracted_intel k)) in
        let agent_notes :=
          "SCAM DETECTED: " +:+ scam_type +:+ ". "
          +:+ "Persona '" +:+ persona_used +:+ "' used in " +:+ lang_used +:+ ". "
          +:+ "Extracted " +:+ count_of "phoneNumbers" +:+ " phone numbers, "
          +:+ count_of "bankAccounts" +:+ " bank accounts, "
          +:+ count_of "upiIds" +:+ " UPI IDs, "
          +:+ count_of "phishingLinks" +:+ " phishing links. "
          +:+ "Conversation had " +:+ Py.str_of_nat total_messages
          +:+ " messages over "
          +:+ Py.str_of_nat (Z.to_nat engagement_duration) +:+ "s. "
          +:+ "Identified red flags: " +:+ Py.join ", " (firstn 3 flags) +:+ ". "
          +:+ "Asked " +:+ Py.str_of_nat asked +:+ " investigative questions." in
        Some {| cb_sessionId := session_id;
                cb_scamDetected := true;
                cb_totalMessagesExchanged := total_messages;
                cb_engagementDurationSeconds := engagement_duration;
                cb_extractedIntelligence := extracted_intel;
                cb_agentNotes := agent_notes;
                cb_scamType := scam_type;
                cb_confidenceLevel := confidence_level |}
    end
  else None.

(** ** [analyze] *)

(** [transcribe_audio]: the stub always returns the empty string. *)
Definition transcribe_audio (base64_audio : string) : string := "".

(** [if flag not in red_flags: red_flags.append(flag)] *)
Definition add_flag (flag : string) (flags : list string) : list string :=
  if Py.mem flag flags then flags else flags ++ [flag].

Definition elicitation_keywords : list string :=
  ["phone"; "number"; "contact"; "email"; "account"; "upi"; "id"; "send me"].

(** [sum(1 for msg in our_messages if "?" in (msg or ""))], where
    [our_messages] are the history texts sent by "user" or "agent". *)
Definition questions_count (history : list Message) : nat :=
  let our_messages :=
    map text
      (List.filter (fun m => String.eqb (sender m) "user"
                             || String.eqb (sender m) "agent") history) in
  length (List.filter (fun msg => Py.contains "?" (Py.or_empty msg))
                      our_messages).

(** The per-turn update of an existing (or just created) session entry. *)
Definition update_session (request : AnalyzeRequest) (msg_text : option string)
    (current_state : SessionState) : SessionState :=
  let history := conversationHistory request in
  let turns := S (length history) in
  let asked :=
    Nat.max (questions_count history) (questions_asked current_state) in
  let msg_lower := Py.lower (Py.or_empty msg_text) in
  let flags := red_flags current_state in
  let flags :=
    if Py.contains "urgent" msg_lower || Py.contains "immediately" msg_lower
    then add_flag "Urgency" flags else flags in
  let flags :=
    if Py.contains "otp" msg_lower || Py.contains "pin" msg_lower
    then add_flag "OTP Request" flags else flags in
  let flags :=
    if Py.contains "http" msg_lower || Py.contains "link" msg_lower
       || Py.contains ".com" msg_lower
    then add_flag "Suspicious Link" flags else flags in
  let flags :=
    if (turns <=? 2)%nat then add_flag "Unsolicited Contact" flags else flags in
  let attempts :=
    if Py.any_in elicitation_keywords msg_lower
    then S (elicitation_attempts current_state)
    else elicitation_attempts current_state in
  {| persona := persona current_state;
     language := language current_state;
     start_time := start_time current_state;
     questions_asked := asked;
     red_flags := flags;
     elicitation_attempts := attempts;
     turn_count := turns |}.

(** The entry stored for a conversation without a session: persona and
    language from the router, all counters at zero. *)
Definition new_session (now : Z) (msg_text : option string) : SessionState :=
  let '(p_key, lang) := select_persona_and_language G msg_text in
  {| persona := p_key; language := lang; start_time := now;
     questions_asked := 0; red_flags := []; elicitation_attempts := 0;
     turn_count := 0 |}.

(** The value of [request.message.text] after the audio step. *)
Definition effective_text (m : Message) : option string :=
  let original_text := text m in
  if Py.truthy_str (audioBase64 m) && negb (Py.truthy_str original_text) then
    let transcribed_text := transcribe_audio (Py.or_empty (audioBase64 m)) in
    if Py.truthy_str (Some transcribed_text) then Some transcribed_text
    else original_text
  else original_text.

(** [is_scam = current_msg_is_scam or has_history] *)
Definition is_scam_of (request : AnalyzeRequest) : result bool :=
  current_msg_is_scam ← predict_scam G (effective_text (message request));
  let has_history := (0 <? length (conversationHistory request))%nat in
  mret (current_msg_is_scam || has_history).

(** One call of the endpoint at clock reading [now]: the session dictionary
    afterwards, the response, and the background task scheduled (if any). *)
Definition analyze (now : Z) (request : AnalyzeRequest)
    (session_state : gmap string SessionState)
  : gmap string SessionState * HttpResponse * option CallbackTask :=
  let msg_text := effective_text (message request) in
  let msg :=
    {| sender := sender (message request); text := msg_text;
       audioBase64 := audioBase64 (message request);
       timestamp := timestamp (message request) |} in
  let history := conversationHistory request in
  match is_scam_of request with
  | Raise e => (session_state, Http500 e, None)
  | Ok is_scam =>
      match extract_entities (Some (conversation_text msg history)) with
      | Raise e => (session_state, Http500 e, None)
      | Ok all_entities =>
          if is_scam then
            let current_state :=
              match session_state !! sessionId request with
              | Some st => st
              | None => new_session now msg_text
              end in
            let current_state := update_session request msg_text current_state in
            let agent_reply :=
              generate_agent_reply G history msg_text all_entities
                (persona current_state) (language current_state) in
            (<[sessionId request := current_state]> session_state,
             Success agent_reply,
             Some {| task_session_id := sessionId request;
                     task_history := history;
                     task_current_msg := msg;
                     task_scam_detected := true;
                     task_entities := all_entities |})
          else
            (session_state,
             Success "I don't think I am interested. Thank you.",
             None)
      end
  end.

(** The report (if any) produced by one call once its background task has
    run, at clock reading [later] on the dictionary left by the call. *)
Definition report_of (now later : Z) (request : AnalyzeRequest)
    (session_state : gmap string SessionState) : option CallbackPayload :=
  let '(session_state', _, task) := analyze now request session_state in
  task ≫= check_and_send_callback later session_state'.

End Service.

(** ** Definitions used to state the properties *)

(** The fixed category names of the extraction result. *)
Definition CATEGORY_NAMES : list string :=
  ["phoneNumbers"; "bankAccounts"; "upiIds"; "phishingLinks";
   "emailAddresses"; "creditCards"; "bitcoinAddresses"; "telegramIds";
   "trackingNumbers"; "ids"; "aadharNumbers"; "panNumbers"; "ifscCodes";
   "suspiciousKeywords"].

(** The normal form under which phone matches are deduplicated. *)
Definition normalized (p : string) : string :=
  let norm := Py.digits_of p in
  match norm with
  | String c _ =>
      if (String.length norm =? 10)%nat && Py.contains (String c "") "6789"
      then "91" +:+ norm else norm
  | EmptyString => norm
  end.

(** Invariant of the phone loop: the kept matches have pairwise distinct
    normal forms of at least ten digits, all recorded in [seen_phones]. *)
Definition phones_distinct (clean : list string) (seen : gset string) : Prop :=
  NoDup (normalized <$> clean)
  /\ Forall (fun p => normalized p ∈ seen
                      /\ 10 <= String.length (normalized p)) clean.

(** The credit-card prefix check as the specification words it: leading
    digit 4; leading digit 5; leading two digits in {34, 37, 65, 60, 64};
    or leading four digits 6011. *)
Definition cc_prefix_ok (digits : string) : bool :=
  String.prefix "4" digits
  || String.prefix "5" digits
  || existsb (fun p => String.prefix p digits) ["34"; "37"; "65"; "60"; "64"]
  || String.prefix "6011" digits.

(** A prioritised rule list evaluated top to bottom, first match wins, as
    the specification describes the keyword cascades. *)
Fixpoint first_match (rules : list (list string * string)) (dflt : string)
    (lowered : string) : string :=
  match rules with
  | [] => dflt
  | (keywords, label) :: rules' =>
      if Py.any_in keywords lowered then label
      else first_match rules' dflt lowered
  end.

Definition persona_rules : list (list string * string) :=
  [(authority_markers, "skeptic");
   (money_markers, "student");
   (bank_markers, "grandma")].

Definition scam_type_rules : list (list string * string) :=
  [(["bitcoin"; "crypto"; "blackmail"; "video"; "extortion"; "private videos"], "Sextortion");
   (["police"; "cbi"; "arrest"; "warrant"; "court"; "narcotics"; "trafficking"; "digital arrest"], "Digital Arrest");
   (["parcel"; "courier"; "dhl"; "customs"; "duty"; "held at customs"], "Courier Scam");
   (["electricity"; "power"; "bill"; "disconnect"; "unpaid bill"; "power cut"], "Utility Scam");
   (["kyc"; "aadhaar"; "pan card"; "update kyc"; "kyc update"], "KYC Scam");
   (["job"; "hiring"; "work from home"; "salary"; "earn money"; "employment"; "urgent hiring"], "Job Scam");
   (["loan"; "credit"; "loan approved"; "pre-approved"; "instant loan"; "emi"], "Loan Scam");
   (["upi"; "cashback"; "paytm"; "phonepe"; "google pay"; "upi id"], "UPI Fraud");
   (["lottery"; "winner"; "prize"; "won"; "lucky draw"; "congratulations you won"], "Lottery Scam");
   (["bank"; "sbi"; "account compromised"; "account blocked"; "share otp"; "unauthorized transaction"], "Bank Fraud");
   (["amazon"; "flipkart"; "order confirmed"; "delivery"; "click here"; "claim prize"; "iphone won"], "Phishing")].

(** A message from the counterpart and a request built from it. *)
Definition scammer_says (t : option string) : Message :=
  {| sender := "scammer"; text := t; audioBase64 := None; timestamp := 0 |}.

Definition request_of (sid : string) (t : option string)
    (history : list Message) : AnalyzeRequest :=
  {| sessionId := sid; message := scammer_says t;
     conversationHistory := history |}.

(** A Gemini client whose routing call always answers [response]. *)
Definition gemini_answering (response : string) : Globals :=
  {| feature := unit; tfidf_vectorizer := None; scam_classifier := None;
     gemini_model :=
       Some {| route_call := fun _ => Ok response;
               chat_call := fun _ _ => Raise ExternalError |} |}.

Section Calls.
Context `{SetOrder}.
Variable G : Globals.

(** The session dictionary after a sequence of calls, each with its clock
    reading. *)
Definition after_calls (calls : list (Z * AnalyzeRequest))
    (session_state : gmap string SessionState) : gmap string SessionState :=
  foldl (fun st call => (analyze G call.1 call.2 st).1.1) session_state calls.

(** The text over which a call aggregates its extraction. *)
Definition aggregated_text (request : AnalyzeRequest) : option string :=
  Some (conversation_text (message request) (conversationHistory request)).

End Calls.

(** ** Definitions used to state further properties *)

(** The labels that [analyze] can append to [red_flags] (its local list
    [red_flags]). *)
Definition RED_FLAG_LABELS : list string :=
  ["Urgency"; "OTP Request"; "Suspicious Link"; "Unsolicited Contact"].

Definition LANGUAGES : list string := ["english"; "hinglish"].

(** What holds of every session entry that [analyze] stores. *)
Definition session_wf (s : SessionState) : Prop :=
  persona s ∈ PERSONAS_keys
  /\ language s ∈ LANGUAGES
  /\ 1 <= turn_count s
  /\ NoDup (red_flags s)
  /\ red_flags s ⊆ RED_FLAG_LABELS.

(** How a session entry may change from one call to a later one. *)
Definition session_le (s s' : SessionState) : Prop :=
  persona s' = persona s
  /\ language s' = language s
  /\ start_time s' = start_time s
  /\ questions_asked s <= questions_asked s'
  /\ elicitation_attempts s <= elicitation_attempts s'
  /\ red_flags s `prefix_of` red_flags s'.

(** The ten fields of [extracted_intel] in the callback payload. *)
Definition REPORTED_KEYS : list string :=
  ["phoneNumbers"; "bankAccounts"; "upiIds"; "phishingLinks";
   "emailAddresses"; "creditCards"; "bitcoinAddresses"; "telegramIds";
   "trackingNumbers"; "ids"].

(** A background task used in examples: one message with a link. *)
Definition link_task : CallbackTask :=
  {| task_session_id := "s";
     task_history := [];
     task_current_msg := scammer_says (Some "pay at http://bad.example.com/x");
     task_scam_detected := true;
     task_entities := {["phishingLinks" := ["http://bad.example.com/x"]]} |}.


Section RepLoop.
Variable step : (Re.mstate -> option Re.mstate) -> Re.mstate -> option Re.mstate.
Variable k : Re.mstate -> option Re.mstate.


End RepLoop.



(** ** [fake_receipt]: the client address that is logged *)



(** The same globals without a Gemini client. *)
Definition without_llm (G : Globals) : Globals :=
  {| feature := feature G;
     tfidf_vectorizer := tfidf_vectorizer G;
     scam_classifier := scam_classifier G;
     gemini_model := None |}.

(** * Properties *)

(** ** The result monad *)

Lemma bind_Ok {A B} (m : result A) (f : A -> result B) (a : A) :
  m = Ok a -> m ≫= f = f a.
Proof. by intros ->. Qed.

Lemma bind_inv_Ok {A B} (m : result A) (f : A -> result B) (b : B) :
  m ≫= f = Ok b -> exists a, m = Ok a /\ f a = Ok b.
Proof. destruct m as [a|e]; simpl; [eauto | discriminate]. Qed.

(** ** String order and [sorted] *)

Lemma ascii_compare_spec (x y : ascii) :
  CompareSpec (x = y) (Py.code x < Py.code y)%N (Py.code y < Py.code x)%N
              (Ascii.compare x y).
Proof.
  unfold Ascii.compare, Py.code.
  destruct (N.compare_spec (N_of_ascii x) (N_of_ascii y)) as [Heq| |];
    constructor; try done.
  rewrite <- (ascii_N_embedding x), <- (ascii_N_embedding y). by rewrite Heq.
Qed.

Global Instance str_le_total : Total str_le.
Proof. intros a b. apply String.leb_total. Qed.

Global Instance str_le_antisym : AntiSymm (=) str_le.
Proof. intros a b. apply String.leb_antisym. Qed.

Global Instance str_le_trans : Transitive str_le.
Proof.
  unfold str_le, String.leb. intros a.
  induction a as [|x a IH]; intros [|y b] [|z c]; simpl; try done.
  destruct (ascii_compare_spec x y) as [Hxy|Hxy|Hxy];
    destruct (ascii_compare_spec y z) as [Hyz|Hyz|Hyz];
    destruct (ascii_compare_spec x z) as [Hxz|Hxz|Hxz];
    subst; try done; try (exfalso; lia); apply IH.
Qed.

Lemma sorted_Sorted (xs : list string) : Sorted str_le (sorted xs).
Proof. apply Sorted_merge_sort, _. Qed.

Lemma sorted_Permutation (xs : list string) : sorted xs ≡ₚ xs.
Proof. apply merge_sort_Permutation. Qed.

Lemma sorted_elem (xs : list string) (x : string) : x ∈ sorted xs <-> x ∈ xs.
Proof. by rewrite sorted_Permutation. Qed.

Lemma sorted_NoDup (xs : list string) : NoDup xs -> NoDup (sorted xs).
Proof. by rewrite sorted_Permutation. Qed.

Section SetOrderFacts.
Context `{SetOrder}.

Lemma set_list_Permutation (xs : list string) : set_list xs ≡ₚ remove_dups xs.
Proof.
  apply NoDup_Permutation.
  - apply set_list_NoDup.
  - apply NoDup_remove_dups.
  - intros x. by rewrite set_list_elem, elem_of_remove_dups.
Qed.

(** [sorted(list(set(xs)))] does not depend on the enumeration order. *)
Lemma sorted_set_list (xs : list string) :
  sorted (set_list xs) = sorted (remove_dups xs).
Proof.
  apply (Sorted_unique str_le); try apply sorted_Sorted.
  by rewrite !sorted_Permutation, set_list_Permutation.
Qed.

Lemma sorted_set_list_elem (xs : list string) (x : string) :
  x ∈ sorted (set_list xs) <-> x ∈ xs.
Proof. by rewrite sorted_elem, set_list_elem. Qed.

Lemma sorted_set_list_NoDup (xs : list string) : NoDup (sorted (set_list xs)).
Proof. apply sorted_NoDup, set_list_NoDup. Qed.

End SetOrderFacts.

(** ** The loops of [extract_entities] never raise *)

Lemma mem_elem_of (x : string) (xs : list string) :
  Py.mem x xs = true <-> x ∈ xs.
Proof.
  unfold Py.mem. rewrite existsb_exists. split.
  - intros (y & Hy & Heq). apply String.eqb_eq in Heq. subst.
    by apply list_elem_of_In.
  - intros Hin. exists x. split; [by apply list_elem_of_In|].
    apply String.eqb_refl.
Qed.

Lemma index0_length (s : string) :
  String.length s <> 0%nat -> exists c, Py.index0 s = Ok c.
Proof. destruct s; simpl; [done | eauto]. Qed.

Lemma is_valid_cc_total (digits : string) :
  String.length digits = 16%nat -> exists b, is_valid_cc digits = Ok b.
Proof.
  intros Hlen. destruct digits as [|c digits]; [done|].
  unfold is_valid_cc. simpl. eauto.
Qed.

Lemma accept_credit_card_total (cc : string) :
  exists b, accept_credit_card cc = Ok b.
Proof.
  unfold accept_credit_card.
  destruct (String.length (Py.digits_of cc) =? 16)%nat eqn:Hlen; [|by eexists].
  apply Nat.eqb_eq in Hlen.
  destruct (is_valid_cc_total _ Hlen) as [b ->]. simpl. eauto.
Qed.

Lemma credit_card_loop_total (ccs valid : list string) :
  exists l, credit_card_loop ccs valid = Ok l.
Proof.
  revert valid. induction ccs as [|cc ccs IH]; intros valid; simpl.
  - by eexists.
  - destruct (accept_credit_card_total cc) as [b ->]. simpl. apply IH.
Qed.

Lemma normalize_phone_normalized (p : string) :
  normalize_phone p = Ok (normalized p).
Proof.
  unfold normalize_phone, normalized.
  destruct (Py.digits_of p) as [|c s] eqn:Hd; [done|].
  destruct (String.length (String c s) =? 10)%nat; [|done].
  simpl. by destruct (Py.contains (String c "") "6789").
Qed.

Lemma phone_loop_total (ps clean : list string) (seen : gset string) :
  exists r, phone_loop ps clean seen = Ok r.
Proof.
  revert clean seen. induction ps as [|p ps IH]; intros clean seen; simpl.
  - by eexists.
  - rewrite normalize_phone_normalized. simpl.
    destruct (_ && _); apply IH.
Qed.

Section ExtractFacts.
Context `{SetOrder}.

(** [extract_entities] on a non-empty text: both loops complete and the
    dictionary is built from their results. *)
Lemma extract_entities_nonempty (c : ascii) (s : string) :
  let text := String c s in
  exists valid_credit_cards clean_phones seen_phones,
    credit_card_loop (Re.findall false Pat.credit_card_pattern text) []
      = Ok valid_credit_cards
    /\ phone_loop (all_phones text) [] ∅ = Ok (clean_phones, seen_phones)
    /\ extract_entities (Some text)
       = Ok (entity_dict text valid_credit_cards clean_phones seen_phones).
Proof.
  intros text.
  destruct (credit_card_loop_total
              (Re.findall false Pat.credit_card_pattern text) []) as [vcc Hcc].
  destruct (phone_loop_total (all_phones text) [] ∅) as [[cp seen] Hph].
  exists vcc, cp, seen. split; [done|]. split; [done|].
  unfold extract_entities. fold text. cbv zeta. rewrite Hcc. simpl.
  rewrite Hph. done.
Qed.

Lemma extract_entities_total (text : option string) :
  exists d, extract_entities text = Ok d.
Proof.
  destruct text as [[|c s]|]; try (by eexists).
  destruct (extract_entities_nonempty c s) as (? & ? & ? & _ & _ & ->).
  by eexists.
Qed.

End ExtractFacts.

(** ** Independence from the enumeration order *)

Lemma list_to_map_agree (bad : string) (l1 l2 : list (string * list string)) :
  Forall2 (fun a b => a.1 = b.1 /\ (a.1 <> bad -> a.2 = b.2)) l1 l2 ->
  forall k, k <> bad ->
    (list_to_map l1 : gmap string (list string)) !! k
    = (list_to_map l2 : gmap string (list string)) !! k.
Proof.
  induction 1 as [|[k1 v1] [k2 v2] l1 l2 [Hk Hv] _ IH]; intros k Hne; [done|].
  simpl in *. subst k2. rewrite !lookup_insert.
  destruct (decide (k1 = k)) as [->|]; [|by apply IH].
  by rewrite Hv.
Qed.

Section OrderIndependence.
Context `{SetOrder}.

Lemma entity_dict_lookup_order (text : string) (vcc cp : list string)
    (seen : gset string) (k : string) :
  k <> "suspiciousKeywords" ->
  entity_dict text vcc cp seen !! k
  = @entity_dict list_order text vcc cp seen !! k.
Proof.
  intros Hne. unfold entity_dict. cbv zeta.
  apply list_to_map_agree with (bad := "suspiciousKeywords"); [|done].
  repeat (constructor; [split; [reflexivity|intros _; apply sorted_set_list]|]).
  constructor; [|constructor]. by split.
Qed.

(** Every category but [suspiciousKeywords] can be read off the result
    computed with the list order. *)
Lemma extract_entities_lookup (text : option string)
    (d : gmap string (list string)) (k : string) :
  extract_entities text = Ok d ->
  k <> "suspiciousKeywords" ->
  d !! k = match @extract_entities list_order text with
           | Ok d0 => d0 !! k
           | Raise _ => None
           end.
Proof.
  intros Hd Hne. destruct text as [[|c s]|]; try (by inversion Hd).
  destruct (extract_entities_nonempty c s) as (vcc & cp & seen & Hcc & Hph & Heq).
  destruct (@extract_entities_nonempty list_order c s)
    as (vcc' & cp' & seen' & Hcc' & Hph' & Heq').
  rewrite Heq in Hd. rewrite Heq'.
  rewrite Hcc in Hcc'. rewrite Hph in Hph'.
  injection Hcc' as <-. injection Hph' as <- <-. injection Hd as <-.
  by apply entity_dict_lookup_order.
Qed.

End OrderIndependence.

(** ** The callback gate *)

Lemma effective_text_id (m : Message) : effective_text m = text m.
Proof.
  unfold effective_text.
  by destruct (Py.truthy_str (audioBase64 m) && negb (Py.truthy_str (text m))).
Qed.

Lemma truthy_list_get (d : gmap string (list string)) (k : string) :
  Py.truthy_list (d !! k) = true <-> get_list d k <> [].
Proof.
  unfold get_list. destruct (d !! k) as [[|x l]|]; simpl; split; done.
Qed.

Lemma has_critical_info_spec (d : gmap string (list string)) :
  has_critical_info d = true <->
  exists k, k ∈ CRITICAL_KEYS /\ get_list d k <> [].
Proof.
  unfold has_critical_info, CRITICAL_KEYS.
  rewrite !orb_true_iff, !truthy_list_get. split.
  - intros [[Hk|Hk]|Hk]; eexists; (split; [|exact Hk]); set_solver.
  - intros (k & Hin & Hk).
    rewrite !elem_of_cons in Hin. destruct Hin as [->|[->|[->|Hin]]]; auto.
    inversion Hin.
Qed.

Section Gate.
Context `{SetOrder}.
Variable G : Globals.

Lemma analyze_text (request : AnalyzeRequest) :
  conversation_text
    {| sender := sender (message request);
       text := effective_text (message request);
       audioBase64 := audioBase64 (message request);
       timestamp := timestamp (message request) |}
    (conversationHistory request)
  = conversation_text (message request) (conversationHistory request).
Proof. unfold conversation_text. simpl. by rewrite effective_text_id. Qed.

(** The gate of [check_and_send_callback] itself. *)
Lemma check_and_send_callback_gate (later : Z) (st : gmap string SessionState)
    (task : CallbackTask) (d : gmap string (list string)) :
  extract_entities
    (Some (conversation_text (task_current_msg task) (task_history task)))
  = Ok d ->
  is_Some (check_and_send_callback later st task) <->
  task_scam_detected task = true
  /\ ((4 <=? S (length (task_history task)))%nat
      || has_critical_info (task_entities task) = true).
Proof.
  intros Hd. unfold check_and_send_callback. cbv zeta. rewrite Hd.
  destruct (task_scam_detected task); destruct (_ || _); cbn [andb];
    split; try done; try (intros Hn; by apply is_Some_None in Hn);
    intros [? ?]; done.
Qed.

(** What [report_of] comes to once the flag and the extraction are known. *)
Lemma report_of_gate (now later : Z) (request : AnalyzeRequest)
    (st : gmap string SessionState) (d : gmap string (list string)) :
  extract_entities (aggregated_text request) = Ok d ->
  is_Some (report_of G now later request st) <->
  is_scam_of G request = Ok true
  /\ ((4 <=? S (length (conversationHistory request)))%nat
      || has_critical_info d = true).
Proof.
  unfold aggregated_text. intros Hd.
  unfold report_of, analyze. rewrite analyze_text, Hd.
  destruct (is_scam_of G request) as [[|]|e].
  - cbn [mbind option_bind].
    rewrite (check_and_send_callback_gate _ _ _ d);
      cbn [task_current_msg task_history task_scam_detected task_entities];
      [|by rewrite analyze_text].
    split; [intros [_ ?]; done | intros [_ ?]; done].
  - split; [intros Hn; by apply is_Some_None in Hn | intros [? _]; done].
  - split; [intros Hn; by apply is_Some_None in Hn | intros [? _]; done].
Qed.

End Gate.

Section GateTheorem.
Context `{SetOrder}.
Variable G : Globals.

Lemma has_critical_info_order (text : option string)
    (d : gmap string (list string)) :
  extract_entities text = Ok d ->
  has_critical_info d
  = match @extract_entities list_order text with
    | Ok d0 => has_critical_info d0
    | Raise _ => false
    end.
Proof.
  intros Hd. unfold has_critical_info.
  rewrite !(extract_entities_lookup text d _ Hd) by done.
  by destruct (@extract_entities list_order text).
Qed.

(** A present text with a hit in the keyword lexicon is classified as a scam
    whatever the statistical tier says. *)
Lemma is_scam_of_keyword (sid t : string) (history : list Message) :
  Py.any_in scam_keywords (Py.lower t) = true ->
  is_scam_of G (request_of sid (Some t) history) = Ok true.
Proof.
  intros Hk. unfold is_scam_of. rewrite effective_text_id.
  cbn [message request_of text scammer_says].
  unfold predict_scam, keyword_tier.
  destruct (ml_tier G (Some t)); [done|]. by rewrite Hk.
Qed.

(** C1. A callback report is emitted exactly when the conversation is
    scam-like (the flag [is_scam] is computed and true) and either the total
    message count, history length plus one, is at least 4, or the extraction
    aggregated over the current message and the history holds a bank
    account, a UPI id or a link.  A scam-classified single-turn message
    without such entities emits nothing; the same message with a link
    appended emits a report. *)
Theorem callback_report_gate (now later : Z) (request : AnalyzeRequest)
    (st : gmap string SessionState) :
  (is_Some (report_of G now later request st) <->
   is_scam_of G request = Ok true
   /\ (4 <= S (length (conversationHistory request))
       \/ exists d k,
            extract_entities (aggregated_text request) = Ok d
            /\ k ∈ CRITICAL_KEYS /\ get_list d k <> []))
  /\ (let plain :=
        request_of (sessionId request)
          (Some "Your account is blocked, verify now") [] in
      is_scam_of G plain = Ok true
      /\ report_of G now later plain st = None)
  /\ (let with_link :=
        request_of (sessionId request)
          (Some "Your account is blocked, verify now http://bad.example.com/login")
          [] in
      is_scam_of G with_link = Ok true
      /\ is_Some (report_of G now later with_link st)).
Proof.
  split; [|split].
  - destruct (extract_entities_total (aggregated_text request)) as [d Hd].
    rewrite (report_of_gate G now later request st d Hd).
    rewrite orb_true_iff, Nat.leb_le, has_critical_info_spec.
    split; intros [Hs Hg]; (split; [done|]).
    + destruct Hg as [?|(k & ? & ?)]; [by left|right; eauto].
    + destruct Hg as [?|(d' & k & Hd' & ? & ?)]; [by left|right].
      rewrite Hd in Hd'. injection Hd' as <-. eauto.
  - intros plain.
    assert (is_scam_of G plain = Ok true) as Hs
      by (by apply is_scam_of_keyword; vm_compute).
    split; [done|].
    destruct (extract_entities_total (aggregated_text plain)) as [d Hd].
    destruct (report_of G now later plain st) as [r|] eqn:Hr; [|done].
    assert (is_Some (report_of G now later plain st)) as Hsome
      by (rewrite Hr; eauto).
    rewrite (report_of_gate G now later plain st d Hd) in Hsome.
    destruct Hsome as [_ Hg].
    rewrite (has_critical_info_order _ d Hd) in Hg.
    vm_compute in Hg. done.
  - intros with_link.
    assert (is_scam_of G with_link = Ok true) as Hs
      by (by apply is_scam_of_keyword; vm_compute).
    split; [done|].
    destruct (extract_entities_total (aggregated_text with_link)) as [d Hd].
    rewrite (report_of_gate G now later with_link st d Hd).
    split; [done|].
    rewrite (has_critical_info_order _ d Hd). by vm_compute.
Qed.

End GateTheorem.

(** ** Extraction of empty and absent text *)

(** C2, as stated, fails: for the empty text the returned mapping is the
    empty dictionary, so the category names are not present in it. *)
Lemma extract_empty_text_has_no_category :
  exists d, @extract_entities list_order (Some "") = Ok d
            /\ ~ (forall k, k ∈ CATEGORY_NAMES -> d !! k = Some []).
Proof.
  exists ∅. split; [done|].
  intros Hall. specialize (Hall "phoneNumbers").
  rewrite lookup_empty in Hall. discriminate Hall. set_solver.
Qed.

Section Empty.
Context `{SetOrder}.

Lemma entity_dict_keys (text : string) (vcc cp : list string)
    (seen : gset string) :
  Forall (fun k => is_Some (entity_dict text vcc cp seen !! k)) CATEGORY_NAMES.
Proof.
  apply Forall_forall. intros k Hk.
  destruct (entity_dict text vcc cp seen !! k) eqn:Hl; [eauto|].
  exfalso. unfold entity_dict in Hl. cbv zeta in Hl.
  apply not_elem_of_list_to_map in Hl. apply Hl.
  cbn [fmap list_fmap fst]. exact Hk.
Qed.

(** C2 (amended). [extract_entities] never raises.  For absent or empty text
    it returns the empty dictionary: no category name is present, and every
    category read with [.get(name, [])] is empty.  For any other text all
    the fixed category names are present. *)
Theorem extract_entities_never_raises (text : option string) :
  (exists d, extract_entities text = Ok d)
  /\ extract_entities None = Ok ∅
  /\ extract_entities (Some "") = Ok ∅
  /\ Forall (fun k => (∅ : gmap string (list string)) !! k = None
                      /\ get_list ∅ k = []) CATEGORY_NAMES
  /\ (forall c s, exists d,
        extract_entities (Some (String c s)) = Ok d
        /\ Forall (fun k => is_Some (d !! k)) CATEGORY_NAMES).
Proof.
  split; [apply extract_entities_total|].
  split; [done|]. split; [done|]. split.
  - apply Forall_forall. intros k _. unfold get_list. by rewrite lookup_empty.
  - intros c s.
    destruct (extract_entities_nonempty c s) as (vcc & cp & seen & _ & _ & ->).
    eexists. split; [done|]. apply entity_dict_keys.
Qed.

End Empty.

(** ** Phone normalisation and deduplication *)

Lemma space_not_digit (c : ascii) : Py.is_space c = true -> Py.is_digit c = false.
Proof. destruct c as [[] [] [] [] [] [] [] []]; vm_compute; congruence. Qed.

Lemma digits_of_lstrip (s : string) : Py.digits_of (Py.lstrip s) = Py.digits_of s.
Proof.
  induction s as [|c s IH]; simpl; [done|].
  destruct (Py.is_space c) eqn:Hsp; [|done].
  by rewrite (space_not_digit c Hsp).
Qed.

Lemma digits_of_rstrip (s : string) : Py.digits_of (Py.rstrip s) = Py.digits_of s.
Proof.
  induction s as [|c s IH]; simpl; [done|].
  destruct (Py.rstrip s) as [|a t] eqn:Hr.
  - simpl in IH. rewrite <- IH.
    destruct (Py.is_space c) eqn:Hsp; simpl.
    + by rewrite (space_not_digit c Hsp).
    + done.
  - change (Py.digits_of (String c (String a t)))
      with (if Py.is_digit c then String c (Py.digits_of (String a t))
            else Py.digits_of (String a t)).
    by rewrite IH.
Qed.

Lemma normalized_strip (p : string) : normalized (Py.strip p) = normalized p.
Proof.
  unfold normalized, Py.strip. by rewrite digits_of_rstrip, digits_of_lstrip.
Qed.

Lemma NoDup_fmap_inj_on {A B} (f : A -> B) (l : list A) (x y : A) :
  NoDup (f <$> l) -> x ∈ l -> y ∈ l -> f x = f y -> x = y.
Proof.
  induction l as [|a l IH]; intros Hnd Hx Hy Hf; [inversion Hx|].
  rewrite fmap_cons in Hnd. apply NoDup_cons in Hnd as [Hna Hnd].
  apply elem_of_cons in Hx as [->|Hx]; apply elem_of_cons in Hy as [->|Hy];
    try done.
  - exfalso. apply Hna. rewrite Hf. by apply list_elem_of_fmap_2.
  - exfalso. apply Hna. rewrite <- Hf. by apply list_elem_of_fmap_2.
  - by apply IH.
Qed.

Lemma phone_loop_distinct (ps clean : list string) (seen : gset string)
    (clean' : list string) (seen' : gset string) :
  phone_loop ps clean seen = Ok (clean', seen') ->
  phones_distinct clean seen -> phones_distinct clean' seen'.
Proof.
  revert clean seen.
  induction ps as [|p ps IH]; intros clean seen; cbn [phone_loop].
  - by intros [= <- <-].
  - rewrite normalize_phone_normalized. cbn [mbind result_bind].
    destruct (negb (bool_decide (normalized p ∈ seen))
              && (10 <=? String.length (normalized p))%nat) eqn:Hc;
      [|apply IH].
    intros Hloop [Hnd Hall]. apply (IH _ _ Hloop).
    apply andb_true_iff in Hc as [Hnew Hlen].
    apply negb_true_iff, bool_decide_eq_false in Hnew.
    apply Nat.leb_le in Hlen.
    split.
    + rewrite fmap_app. apply NoDup_app. split; [done|]. split.
      * intros n Hn Hn'. cbn in Hn'. apply list_elem_of_singleton in Hn'.
        rewrite normalized_strip in Hn'. subst n.
        apply list_elem_of_fmap in Hn as (q & Hq & Hin).
        rewrite Forall_forall in Hall. destruct (Hall q Hin) as [Hseen _].
        apply Hnew. by rewrite Hq.
      * cbn. apply NoDup_singleton.
    + apply Forall_app. split.
      * eapply Forall_impl; [exact Hall|]. cbn. intros q [Hq ?].
        split; [set_solver|done].
      * apply Forall_singleton. rewrite normalized_strip.
        split; [set_solver|done].
Qed.

Section Phones.
Context `{SetOrder}.

(** The [phoneNumbers] entry of any extraction has pairwise distinct normal
    forms, each of at least ten digits. *)
Lemma phone_numbers_distinct (text : option string) :
  exists d, extract_entities text = Ok d
    /\ NoDup (normalized <$> get_list d "phoneNumbers")
    /\ Forall (fun p => 10 <= String.length (normalized p))
              (get_list d "phoneNumbers").
Proof.
  destruct text as [[|c s]|];
    try (exists ∅; split; [done|]; split; [constructor|constructor]).
  destruct (extract_entities_nonempty c s) as (vcc & cp & seen & _ & Hph & ->).
  eexists. split; [done|].
  assert (phones_distinct cp seen) as [Hnd Hall].
  { apply (phone_loop_distinct _ _ _ _ _ Hph). split; constructor. }
  assert (get_list (entity_dict (String c s) vcc cp seen) "phoneNumbers"
          = sorted (set_list cp)) as -> by done.
  split.
  - apply NoDup_fmap_2_strong; [|apply sorted_set_list_NoDup].
    intros x y Hx Hy Hf. rewrite sorted_set_list_elem in Hx, Hy.
    exact (NoDup_fmap_inj_on normalized cp x y Hnd Hx Hy Hf).
  - apply Forall_forall. intros p Hp. rewrite sorted_set_list_elem in Hp.
    rewrite Forall_forall in Hall. by destruct (Hall p Hp).
Qed.

(** C3. From "9876543210 and +91-9876543210" the four phone patterns yield
    three matches and the extraction exactly one phone entry: every match is
    normalised by stripping non-digits, a ten-digit form starting with 6-9
    gets the prefix 91, and matches are deduplicated on that form. *)
Theorem phone_dedup_example :
  let text := "9876543210 and +91-9876543210" in
  all_phones text = ["9876543210"; "+91-9876543210"; "+91-9876543210"]
  /\ (exists d, extract_entities (Some text) = Ok d
                /\ d !! "phoneNumbers" = Some ["9876543210"])
  /\ (forall p, normalize_phone p = Ok (normalized p))
  /\ normalized "9876543210" = "919876543210"
  /\ normalized "+91-9876543210" = "919876543210"
  /\ (forall t, exists d,
        extract_entities t = Ok d
        /\ NoDup (normalized <$> get_list d "phoneNumbers")
        /\ Forall (fun p => 10 <= String.length (normalized p))
                  (get_list d "phoneNumbers")).
Proof.
  intros text. split; [by vm_compute|]. split.
  - destruct (extract_entities_total (Some text)) as [d Hd].
    exists d. split; [done|].
    rewrite (extract_entities_lookup _ d _ Hd) by done. by vm_compute.
  - split; [apply normalize_phone_normalized|].
    split; [by vm_compute|]. split; [by vm_compute|].
    apply phone_numbers_distinct.
Qed.

End Phones.

(** ** The credit-card prefix gate *)

Lemma eqb_take_prefix (p s : string) :
  String.eqb (Py.take (String.length p) s) p = String.prefix p s.
Proof.
  apply eq_true_iff_eq. rewrite String.eqb_eq. unfold Py.take.
  split; intros Hp; by apply String.prefix_correct.
Qed.

Lemma take_one (c : ascii) (s : string) : Py.take 1 (String c s) = String c "".
Proof. unfold Py.take. by destruct s. Qed.

(** The prefix test of the code is the check of the specification. *)
Lemma is_valid_cc_spec (c : ascii) (s : string) :
  is_valid_cc (String c s) = Ok (cc_prefix_ok (String c s)).
Proof.
  unfold is_valid_cc, cc_prefix_ok. cbn [Py.index0 mbind result_bind mret result_ret].
  f_equal. unfold Py.mem. cbn [existsb].
  rewrite <- !(take_one c s).
  pose proof (eqb_take_prefix "4" (String c s)) as H4.
  pose proof (eqb_take_prefix "5" (String c s)) as H5.
  pose proof (eqb_take_prefix "34" (String c s)) as H34.
  pose proof (eqb_take_prefix "37" (String c s)) as H37.
  pose proof (eqb_take_prefix "65" (String c s)) as H65.
  pose proof (eqb_take_prefix "60" (String c s)) as H60.
  pose proof (eqb_take_prefix "64" (String c s)) as H64.
  pose proof (eqb_take_prefix "6011" (String c s)) as H6011.
  cbn [String.length] in *.
  rewrite H4, H5, H34, H37, H65, H60, H64, H6011.
  repeat match goal with
         | |- context [String.prefix ?p ?d] => destruct (String.prefix p d)
         end; reflexivity.
Qed.

(** The loop body accepts exactly the candidates with sixteen digits that
    pass the prefix check and are not all zeros. *)
Lemma accept_credit_card_spec (cc : string) :
  accept_credit_card cc
  = Ok ((String.length (Py.digits_of cc) =? 16)%nat
        && cc_prefix_ok (Py.digits_of cc)
        && negb (String.eqb (Py.digits_of cc) "0000000000000000")).
Proof.
  unfold accept_credit_card.
  destruct (String.length (Py.digits_of cc) =? 16)%nat eqn:Hlen; [|done].
  destruct (Py.digits_of cc) as [|c s]; [done|].
  by rewrite is_valid_cc_spec.
Qed.

Lemma credit_card_loop_accepted (ccs valid l : list string) :
  credit_card_loop ccs valid = Ok l ->
  Forall (fun cc => accept_credit_card cc = Ok true) valid ->
  Forall (fun cc => accept_credit_card cc = Ok true) l.
Proof.
  revert valid. induction ccs as [|cc ccs IH]; intros valid; cbn [credit_card_loop].
  - by intros [= <-].
  - destruct (accept_credit_card cc) as [[|]|e] eqn:Hacc;
      cbn [mbind result_bind]; [| apply IH | done].
    intros Hloop Hall. apply (IH _ Hloop).
    apply Forall_app. split; [done|]. by apply Forall_singleton.
Qed.

Section CreditCards.
Context `{SetOrder}.

Lemma credit_cards_accepted (text : option string) :
  exists d, extract_entities text = Ok d
    /\ Forall (fun cc =>
                 String.length (Py.digits_of cc) = 16%nat
                 /\ cc_prefix_ok (Py.digits_of cc) = true
                 /\ Py.digits_of cc <> "0000000000000000")
              (get_list d "creditCards").
Proof.
  destruct text as [[|c s]|]; try (exists ∅; split; [done|constructor]).
  destruct (extract_entities_nonempty c s) as (vcc & cp & seen & Hcc & _ & ->).
  eexists. split; [done|].
  assert (get_list (entity_dict (String c s) vcc cp seen) "creditCards"
          = sorted (set_list vcc)) as -> by done.
  apply Forall_forall. intros cc Hin. rewrite sorted_set_list_elem in Hin.
  pose proof (credit_card_loop_accepted _ _ _ Hcc (Forall_nil_2 _)) as Hall.
  rewrite Forall_forall in Hall. specialize (Hall cc Hin).
  rewrite accept_credit_card_spec in Hall. injection Hall as Hall.
  apply andb_true_iff in Hall as [Hall Hz].
  apply andb_true_iff in Hall as [Hlen Hp].
  apply Nat.eqb_eq in Hlen. apply negb_true_iff, String.eqb_neq in Hz.
  done.
Qed.

(** C8. A credit-card candidate enters [creditCards] only if its digits are
    sixteen, pass the prefix check (leading 4; leading 5; leading two digits
    in {34, 37, 65, 60, 64}; leading four digits 6011) and are not all
    zeros.  A candidate whose sixteen digits start with 4 is accepted, one
    whose digits start with 9 is rejected. *)
Theorem credit_card_prefix_gate :
  (forall text, exists d,
      extract_entities text = Ok d
      /\ Forall (fun cc =>
                   String.length (Py.digits_of cc) = 16%nat
                   /\ cc_prefix_ok (Py.digits_of cc) = true
                   /\ Py.digits_of cc <> "0000000000000000")
                (get_list d "creditCards"))
  /\ (forall cc,
        accept_credit_card cc
        = Ok ((String.length (Py.digits_of cc) =? 16)%nat
              && cc_prefix_ok (Py.digits_of cc)
              && negb (String.eqb (Py.digits_of cc) "0000000000000000")))
  /\ (forall rest,
        accept_credit_card (String "4" rest)
        = Ok (String.length (Py.digits_of rest) =? 15)%nat)
  /\ (forall rest, accept_credit_card (String "9" rest) = Ok false)
  /\ (exists d, extract_entities (Some "4111111111111111") = Ok d
                /\ d !! "creditCards" = Some ["4111111111111111"])
  /\ (exists d, extract_entities (Some "9111111111111111") = Ok d
                /\ d !! "creditCards" = Some []).
Proof.
  split; [apply credit_cards_accepted|].
  split; [apply accept_credit_card_spec|].
  split; [|split; [|split]].
  - intros rest. rewrite accept_credit_card_spec.
    change (Py.digits_of (String "4" rest)) with (String "4" (Py.digits_of rest)).
    assert (cc_prefix_ok (String "4" (Py.digits_of rest)) = true) as ->
      by (unfold cc_prefix_ok; cbn; by destruct (Py.digits_of rest)).
    assert (String.eqb (String "4" (Py.digits_of rest)) "0000000000000000"
            = false) as -> by done.
    cbn [String.length negb]. by rewrite !andb_true_r.
  - intros rest. rewrite accept_credit_card_spec.
    change (Py.digits_of (String "9" rest)) with (String "9" (Py.digits_of rest)).
    by destruct (_ =? 16)%nat.
  - destruct (extract_entities_total (Some "4111111111111111")) as [d Hd].
    exists d. split; [done|].
    rewrite (extract_entities_lookup _ d _ Hd) by done. by vm_compute.
  - destruct (extract_entities_total (Some "9111111111111111")) as [d Hd].
    exists d. split; [done|].
    rewrite (extract_entities_lookup _ d _ Hd) by done. by vm_compute.
Qed.

End CreditCards.

(** ** Deduplication and order of the categories *)

Section Categories.
Context `{SetOrder}.

(** Every category of an extraction is free of duplicates, and every
    category other than [suspiciousKeywords] is sorted. *)
Lemma categories_dedup_sorted (text : option string) :
  exists d, extract_entities text = Ok d
    /\ forall k l, d !! k = Some l ->
         NoDup l /\ (k <> "suspiciousKeywords" -> Sorted str_le l).
Proof.
  destruct text as [[|c s]|];
    try (exists ∅; split; [done|]; intros k l Hl; by rewrite lookup_empty in Hl).
  destruct (extract_entities_nonempty c s) as (vcc & cp & seen & _ & _ & ->).
  eexists. split; [done|]. intros k l Hl.
  unfold entity_dict in Hl. cbv zeta in Hl.
  apply elem_of_list_to_map_2 in Hl.
  repeat (apply elem_of_cons in Hl as [[= -> ->]|Hl];
          [split; [apply sorted_set_list_NoDup | intros _; apply sorted_Sorted]|]).
  apply elem_of_cons in Hl as [[= -> ->]|Hl]; [|inversion Hl].
  split; [apply set_list_NoDup | done].
Qed.

End Categories.

(** C4 fails on the code for [suspiciousKeywords]: that entry is
    [list(set(...))] without [sorted], so its order is the enumeration order
    of the set.  With the list order, "block urgent" yields the keywords in
    lexicon order, which is not sorted. *)
Theorem suspicious_keywords_unsorted :
  exists d, @extract_entities list_order (Some "block urgent") = Ok d
    /\ d !! "suspiciousKeywords" = Some ["urgent"; "block"]
    /\ ~ Sorted str_le ["urgent"; "block"].
Proof.
  destruct (@extract_entities_total list_order (Some "block urgent"))
    as (d & Hd).
  exists d. split; [done|]. split.
  { assert (match @extract_entities list_order (Some "block urgent") with
            | Ok d0 => d0 !! "suspiciousKeywords"
            | Raise _ => None
            end = Some ["urgent"; "block"]) as Hk by (vm_compute; reflexivity).
    by rewrite Hd in Hk. }
  intros Hs. apply Sorted_inv in Hs as [_ Hhd]. apply HdRel_inv in Hhd.
  vm_compute in Hhd. discriminate.
Qed.

(** ** Keyword cascades *)

Lemma prefix_lower (n s : string) :
  String.prefix n s = true -> String.prefix (Py.lower n) (Py.lower s) = true.
Proof.
  revert s. induction n as [|a n IH]; intros [|b s]; simpl; try done.
  destruct (ascii_dec a b) as [->|]; [|done].
  intros Hp. destruct (ascii_dec (Py.lower_char b) (Py.lower_char b)); [|done].
  by apply IH.
Qed.

Lemma contains_lower (n s : string) :
  Py.contains n s = true -> Py.contains (Py.lower n) (Py.lower s) = true.
Proof.
  induction s as [|b s IH]; simpl; rewrite !orb_true_iff.
  - intros [Hp|?]; [|done]. left. by apply (prefix_lower n "").
  - intros [Hp|Hc]; [left; by apply (prefix_lower n (String b s)) | right; auto].
Qed.

Lemma any_in_intro (k : string) (ks : list string) (s : string) :
  k ∈ ks -> Py.contains k s = true -> Py.any_in ks s = true.
Proof.
  intros Hin Hc. unfold Py.any_in. apply existsb_exists.
  exists k. split; [by apply list_elem_of_In | done].
Qed.

(** A lower-case keyword occurring in a text still occurs after the text is
    lower-cased. *)
Lemma keyword_survives_lower (k : string) (ks : list string) (t : string) :
  Py.lower k = k -> k ∈ ks -> Py.contains k t = true ->
  Py.any_in ks (Py.lower t) = true.
Proof.
  intros Hk Hin Hc. apply (any_in_intro k); [done|].
  rewrite <- Hk. by apply contains_lower.
Qed.

(** C5. The persona heuristic is the ordered decision list of the
    specification, first match wins: authority markers give the skeptic,
    otherwise money markers the student, otherwise banking markers the
    elderly persona, otherwise the distracted parent.  A text containing
    both "arrest" and "lottery" is routed to the skeptic, not the student. *)
Theorem heuristic_persona_priority (text : option string) :
  let lowered := Py.lower (Py.or_empty text) in
  let persona_key := (_heuristic_persona_and_language text).1 in
  persona_key = first_match persona_rules "parent" lowered
  /\ (Py.any_in authority_markers lowered = true -> persona_key = "skeptic")
  /\ (Py.any_in authority_markers lowered = false ->
      Py.any_in money_markers lowered = true -> persona_key = "student")
  /\ (Py.any_in authority_markers lowered = false ->
      Py.any_in money_markers lowered = false ->
      Py.any_in bank_markers lowered = true -> persona_key = "grandma")
  /\ (Py.any_in authority_markers lowered = false ->
      Py.any_in money_markers lowered = false ->
      Py.any_in bank_markers lowered = false -> persona_key = "parent")
  /\ (Py.contains "arrest" (Py.or_empty text) = true ->
      Py.contains "lottery" (Py.or_empty text) = true ->
      persona_key = "skeptic" /\ persona_key <> "student").
Proof.
  intros lowered persona_key.
  assert (persona_key = first_match persona_rules "parent" lowered) as Heq.
  { unfold persona_key, _heuristic_persona_and_language. fold lowered.
    cbn [first_match persona_rules].
    by repeat (destruct (Py.any_in _ lowered); try reflexivity). }
  split; [done|]. rewrite Heq. cbn [first_match persona_rules].
  split; [by intros ->|]. split; [by intros -> ->|].
  split; [by intros -> -> ->|]. split; [by intros -> -> ->|].
  intros Ha _.
  assert (Py.any_in authority_markers lowered = true) as ->; [|done].
  apply (keyword_survives_lower "arrest"); [done| |done].
  unfold authority_markers. set_solver.
Qed.

(** C5 at "You won a lottery, pay or face arrest". *)
Lemma heuristic_persona_priority_witness :
  (_heuristic_persona_and_language
     (Some "You won a lottery, pay or face arrest")).1 = "skeptic"
  /\ (_heuristic_persona_and_language
        (Some "You won a lottery, pay or face arrest")).1 <> "student".
Proof.
  refine (proj2 (proj2 (proj2 (proj2 (proj2
    (heuristic_persona_priority
       (Some "You won a lottery, pay or face arrest")))))) _ _);
    reflexivity.
Defined.

(** C6. The scam category is the first rule of a fixed ordered keyword
    cascade that matches the lower-cased current message, and "Unknown"
    when none matches.  A message containing both "bitcoin" and "police" is
    classed as Sextortion, not as Digital Arrest. *)
Theorem scam_type_first_match (current_text : option string) :
  let lowered := Py.lower (Py.or_empty current_text) in
  infer_scam_type current_text = first_match scam_type_rules "Unknown" lowered
  /\ (Forall (fun rule => Py.any_in rule.1 lowered = false) scam_type_rules ->
      infer_scam_type current_text = "Unknown")
  /\ (Py.contains "bitcoin" (Py.or_empty current_text) = true ->
      Py.contains "police" (Py.or_empty current_text) = true ->
      infer_scam_type current_text = "Sextortion"
      /\ infer_scam_type current_text <> "Digital Arrest")
  /\ (Py.any_in (hd ([], "") scam_type_rules).1 lowered = false ->
      Py.contains "police" (Py.or_empty current_text) = true ->
      infer_scam_type current_text = "Digital Arrest").
Proof.
  intros lowered.
  assert (infer_scam_type current_text
          = first_match scam_type_rules "Unknown" lowered) as Heq by reflexivity.
  split; [done|]. rewrite Heq. split; [|split].
  - generalize scam_type_rules. intros rules Hall.
    induction Hall as [|[kws label] rules Hk _ IH]; [done|].
    cbn [first_match]. cbn [fst] in Hk. rewrite Hk. exact IH.
  - intros Hb _. cbn [first_match scam_type_rules].
    assert (Py.any_in ["bitcoin"; "crypto"; "blackmail"; "video"; "extortion";
                       "private videos"] lowered = true) as ->; [|done].
    apply (keyword_survives_lower "bitcoin"); [done| |done]. set_solver.
  - cbn [hd fst scam_type_rules first_match]. intros -> Hp.
    assert (Py.any_in ["police"; "cbi"; "arrest"; "warrant"; "court";
                       "narcotics"; "trafficking"; "digital arrest"] lowered
            = true) as ->; [|done].
    apply (keyword_survives_lower "police"); [done| |done]. set_solver.
Qed.

(** C6 at "Pay bitcoin or the police will come". *)
Lemma scam_type_first_match_witness :
  infer_scam_type (Some "Pay bitcoin or the police will come") = "Sextortion"
  /\ infer_scam_type (Some "Pay bitcoin or the police will come")
     <> "Digital Arrest".
Proof.
  refine (proj1 (proj2 (proj2
    (scam_type_first_match (Some "Pay bitcoin or the police will come")))) _ _);
    reflexivity.
Defined.

(** ** LLM-based persona routing *)

(** C7, as stated, fails: when the response names a persona but no language,
    only the language takes its default; the heuristic, which would answer
    (skeptic, hinglish) here, is not consulted. *)
Lemma routing_defaults_only_unparsed_half :
  let G := gemini_answering "student" in
  let text := Some "police bhai jaldi karo" in
  select_persona_and_language G text = ("student", "english")
  /\ _heuristic_persona_and_language text = ("skeptic", "hinglish")
  /\ select_persona_and_language G text <> _heuristic_persona_and_language text.
Proof. by vm_compute. Qed.

(** C7 (amended). The router uses the heuristic only when no model is
    configured or the routing call raises.  Otherwise the stripped,
    lower-cased response is split at "|": the persona is the first known key
    (grandma, student, skeptic, parent) contained in the first part, or
    grandma when none is; the language is hinglish when a second part exists
    and contains "hinglish" or "hindi", else english.  Each half takes its
    default on its own. *)
Theorem routing_parse (G : Globals) (text : option string) :
  (gemini_model G = None ->
   select_persona_and_language G text = _heuristic_persona_and_language text)
  /\ (forall g e,
        gemini_model G = Some g -> route_call g text = Raise e ->
        select_persona_and_language G text = _heuristic_persona_and_language text)
  /\ (forall g r,
        gemini_model G = Some g -> route_call g text = Ok r ->
        let parts := Py.split "|" (Py.lower (Py.strip r)) in
        select_persona_and_language G text
        = (first_persona_in PERSONAS_keys (hd "" parts) "grandma",
           if Py.any_in ["hinglish"; "hindi"] (nth 1 parts "")
           then "hinglish" else "english")
        /\ (Forall (fun p => Py.contains p (hd "" parts) = false) PERSONAS_keys ->
            (select_persona_and_language G text).1 = "grandma")
        /\ (length parts < 2 ->
            (select_persona_and_language G text).2 = "english")).
Proof.
  unfold select_persona_and_language.
  split; [by intros ->|]. split; [by intros g e -> ->|].
  intros g r Hg Hr. rewrite Hg, Hr.
  set (parts := Py.split "|" (Py.lower (Py.strip r))).
  assert (parse_routing r
          = (first_persona_in PERSONAS_keys (hd "" parts) "grandma",
             if Py.any_in ["hinglish"; "hindi"] (nth 1 parts "")
             then "hinglish" else "english")) as Heq.
  { unfold parse_routing. fold parts.
    destruct parts as [|p0 [|p1 ps]]; cbn [hd nth]; try reflexivity.
    unfold Py.any_in. cbn [existsb]. by rewrite orb_false_r. }
  split; [done|]. rewrite Heq. cbn [fst snd]. split.
  - intros Hall. unfold PERSONAS_keys in *.
    repeat (apply Forall_cons in Hall as [Hp Hall];
            cbn [first_persona_in]; rewrite Hp; clear Hp).
    done.
  - intros Hlen. destruct parts as [|p0 [|p1 ps]]; cbn in Hlen; try lia; done.
Qed.

(** C7 (amended) at the response "student" for "police bhai jaldi karo". *)
Lemma routing_parse_witness :
  select_persona_and_language (gemini_answering "student")
    (Some "police bhai jaldi karo") = ("student", "english").
Proof.
  refine (proj1 (proj2 (proj2
    (routing_parse (gemini_answering "student")
       (Some "police bhai jaldi karo"))) _ "student" _ _));
    reflexivity.
Defined.

(** ** Session counters *)

(** C9, as stated, fails: the turn count is recomputed from the supplied
    history, so a later call with a shorter history lowers it. *)
Lemma turn_count_decreases :
  let m := scammer_says (Some "hello") in
  let st1 :=
    (@analyze list_order offline 0
       (request_of "s" (Some "urgent") [m; m]) ∅).1.1 in
  let st2 :=
    (@analyze list_order offline 1 (request_of "s" (Some "urgent") []) st1).1.1 in
  turn_count <$> st1 !! "s" = Some 3
  /\ turn_count <$> st2 !! "s" = Some 1.
Proof. by vm_compute. Qed.

Section Sessions.
Context `{SetOrder}.
Variable G : Globals.

(** The dictionary after one call. *)
Lemma analyze_state (now : Z) (request : AnalyzeRequest)
    (st : gmap string SessionState) :
  (analyze G now request st).1.1
  = match is_scam_of G request with
    | Ok true =>
        <[sessionId request :=
            update_session request (effective_text (message request))
              (default (new_session G now (effective_text (message request)))
                       (st !! sessionId request))]> st
    | _ => st
    end.
Proof.
  unfold analyze.
  destruct (is_scam_of G request) as [[|]|e]; [| |done].
  - destruct (extract_entities_total
                (Some (conversation_text
                   {| sender := sender (message request);
                      text := effective_text (message request);
                      audioBase64 := audioBase64 (message request);
                      timestamp := timestamp (message request) |}
                   (conversationHistory request)))) as [d ->].
    cbn [fst]. by destruct (st !! sessionId request).
  - by destruct (extract_entities _).
Qed.

Lemma analyze_questions_mono (now : Z) (request : AnalyzeRequest)
    (st : gmap string SessionState) (sid : string) (s : SessionState) :
  st !! sid = Some s ->
  exists s', (analyze G now request st).1.1 !! sid = Some s'
             /\ questions_asked s <= questions_asked s'.
Proof.
  intros Hs. rewrite analyze_state.
  destruct (is_scam_of G request) as [[|]|e]; try (exists s; by split).
  destruct (decide (sessionId request = sid)) as [<-|Hne].
  - rewrite lookup_insert_eq, Hs. eexists. split; [done|].
    unfold update_session, id. cbn [questions_asked from_option]. lia.
  - rewrite lookup_insert_ne by done. exists s. by split.
Qed.

Lemma after_calls_questions_mono (calls : list (Z * AnalyzeRequest))
    (st : gmap string SessionState) (sid : string) (s : SessionState) :
  st !! sid = Some s ->
  exists s', after_calls G calls st !! sid = Some s'
             /\ questions_asked s <= questions_asked s'.
Proof.
  revert st s. induction calls as [|[now request] calls IH]; intros st s Hs.
  - exists s. by split.
  - destruct (analyze_questions_mono now request st sid s Hs) as (s1 & Hs1 & Hle).
    destruct (IH _ s1 Hs1) as (s2 & Hs2 & Hle2).
    exists s2. split; [exact Hs2 | lia].
Qed.

(** C9 (amended). On every call treated as scam-like the turn count of the
    session becomes the supplied history length plus one; any other call
    leaves the dictionary unchanged.  The turn count therefore does not
    decrease from one call to the next when the supplied history is at least
    as long as the recorded count minus one.  The questions-asked count is
    the maximum of the recomputed count and its previous value, and never
    decreases along any sequence of calls. *)
Theorem session_counters (now : Z) (request : AnalyzeRequest)
    (st : gmap string SessionState) :
  let sid := sessionId request in
  let turns := S (length (conversationHistory request)) in
  let st' := (analyze G now request st).1.1 in
  (is_scam_of G request = Ok true -> turn_count <$> st' !! sid = Some turns)
  /\ (is_scam_of G request <> Ok true -> st' = st)
  /\ (forall s, st !! sid = Some s ->
        exists s', st' !! sid = Some s'
          /\ questions_asked s <= questions_asked s'
          /\ (is_scam_of G request = Ok true ->
              questions_asked s'
              = Nat.max (questions_count (conversationHistory request))
                        (questions_asked s))
          /\ (turn_count s <= turns -> turn_count s <= turn_count s'))
  /\ (forall calls sid0 s, st !! sid0 = Some s ->
        exists s', after_calls G calls st !! sid0 = Some s'
          /\ questions_asked s <= questions_asked s').
Proof.
  intros sid turns st'. subst st'. rewrite analyze_state.
  split; [|split; [|split]].
  - intros ->. by rewrite lookup_insert_eq.
  - intros Hne. by destruct (is_scam_of G request) as [[|]|e].
  - intros s Hs. destruct (is_scam_of G request) as [[|]|e];
      try (exists s; repeat split; [done|lia|done|lia]).
    rewrite lookup_insert_eq. fold sid. rewrite Hs. eexists. split; [done|].
    unfold update_session, id. cbn [questions_asked turn_count from_option].
    repeat split; lia.
  - intros calls sid0 s Hs. by apply after_calls_questions_mono.
Qed.

End Sessions.

(** C9 (amended) at a first scam-like call with an empty history. *)
Lemma session_counters_witness :
  turn_count <$>
    (@analyze list_order offline 0 (request_of "s" (Some "urgent") []) ∅).1.1
      !! "s" = Some 1.
Proof.
  refine (proj1 (@session_counters list_order offline 0
                   (request_of "s" (Some "urgent") []) ∅) _).
  reflexivity.
Defined.

(** ** History and the scam-like flag *)

Section History.
Context `{SetOrder}.
Variable G : Globals.

Lemma predict_scam_present (t : string) :
  exists b, predict_scam G (Some t) = Ok b.
Proof. unfold predict_scam. destruct (ml_tier G (Some t)); by eexists. Qed.

(** With a present text, a non-empty history makes the conversation
    scam-like whatever the classifier says: the session entry exists
    afterwards, a persona reply is produced and the callback is scheduled. *)
Lemma history_makes_scam_like (now : Z) (sid t : string) (m : Message)
    (rest : list Message) (st : gmap string SessionState) :
  let request := request_of sid (Some t) (m :: rest) in
  is_scam_of G request = Ok true
  /\ exists st' current_state all_entities,
       extract_entities (aggregated_text request) = Ok all_entities
       /\ st' !! sid = Some current_state
       /\ analyze G now request st
          = (st',
             Success (generate_agent_reply G (m :: rest) (Some t) all_entities
                        (persona current_state) (language current_state)),
             Some {| task_session_id := sid;
                     task_history := m :: rest;
                     task_current_msg := scammer_says (Some t);
                     task_scam_detected := true;
                     task_entities := all_entities |}).
Proof.
  intros request.
  assert (is_scam_of G request = Ok true) as Hs.
  { unfold is_scam_of, request. rewrite effective_text_id.
    cbn [message request_of text scammer_says conversationHistory].
    destruct (predict_scam_present t) as [b ->].
    cbn [mbind result_bind mret result_ret length Nat.ltb Nat.leb].
    by rewrite orb_true_r. }
  split; [done|].
  destruct (extract_entities_total (aggregated_text request)) as [d Hd].
  unfold analyze. rewrite Hs, analyze_text. unfold aggregated_text in Hd.
  rewrite Hd. rewrite !effective_text_id.
  cbn [request request_of sessionId message conversationHistory text
       scammer_says sender audioBase64 timestamp].
  eexists _, _, d. split; [exact Hd|]. split; [apply lookup_insert_eq|].
  reflexivity.
Qed.

(** The fixed disengagement reply comes from the branch taken only when the
    history is empty and the classifier does not fire. *)
Lemma disengagement_only_without_history (now : Z) (request : AnalyzeRequest)
    (st st' : gmap string SessionState) (reply : string) :
  analyze G now request st = (st', Success reply, None) ->
  conversationHistory request = []
  /\ predict_scam G (text (message request)) = Ok false
  /\ reply = "I don't think I am interested. Thank you."
  /\ st' = st.
Proof.
  unfold analyze, is_scam_of. rewrite effective_text_id.
  destruct (predict_scam G (text (message request))) as [b|e];
    cbn [mbind result_bind mret result_ret]; [|done].
  destruct (extract_entities _); [|done].
  destruct (conversationHistory request) as [|m rest] eqn:Hh;
    cbn [length Nat.ltb Nat.leb]; [|by rewrite orb_true_r].
  rewrite orb_false_r. destruct b; [done|].
  by intros [= <- <-].
Qed.

(** C10 fails on the code when the current message text is null: the
    keyword tier calls [text.lower()] on [None], the call raises before the
    history is looked at, and the endpoint answers with an internal error
    without touching the session, although the history is not empty. *)
Theorem null_text_with_history_raises (now : Z) (sid : string) (m : Message)
    (rest : list Message) (st : gmap string SessionState) :
  predict_scam offline None = Raise AttributeError
  /\ analyze offline now (request_of sid None (m :: rest)) st
     = (st, Http500 AttributeError, None).
Proof. split; reflexivity. Qed.

End History.

(** * Further properties of the service *)

(** ** Routing always yields a known persona and language *)

Lemma first_persona_in_elem (keys : list string) (part dflt : string) :
  first_persona_in keys part dflt ∈ dflt :: keys.
Proof.
  induction keys as [|k keys IH]; cbn [first_persona_in]; [set_solver|].
  destruct (Py.contains k part); set_solver.
Qed.

Lemma heuristic_valid (text : option string) :
  (_heuristic_persona_and_language text).1 ∈ PERSONAS_keys
  /\ (_heuristic_persona_and_language text).2 ∈ LANGUAGES.
Proof.
  unfold _heuristic_persona_and_language, PERSONAS_keys, LANGUAGES.
  repeat (destruct (Py.any_in _ _)); cbn [fst snd]; split; set_solver.
Qed.

Lemma parse_routing_valid (response_text : string) :
  (parse_routing response_text).1 ∈ PERSONAS_keys
  /\ (parse_routing response_text).2 ∈ LANGUAGES.
Proof.
  unfold parse_routing, LANGUAGES. cbn [fst snd]. split.
  - destruct (Py.split _ _) as [|part0 ?]; [unfold PERSONAS_keys; set_solver|].
    pose proof (first_persona_in_elem PERSONAS_keys part0 "grandma") as Hin.
    unfold PERSONAS_keys in *. set_solver.
  - destruct (Py.split _ _) as [|? [|part1 ?]]; try set_solver.
    destruct (_ || _); set_solver.
Qed.

Lemma select_valid (G : Globals) (text : option string) :
  (select_persona_and_language G text).1 ∈ PERSONAS_keys
  /\ (select_persona_and_language G text).2 ∈ LANGUAGES.
Proof.
  unfold select_persona_and_language.
  destruct (gemini_model G) as [g|]; [|apply heuristic_valid].
  destruct (route_call g text); [apply parse_routing_valid|apply heuristic_valid].
Qed.

(** Whatever the routing model answers (or however it fails), the selected
    persona is one of the four persona keys and the language is english or
    hinglish. *)
Theorem routing_result_valid (G : Globals) (text : option string) :
  (select_persona_and_language G text).1 ∈ PERSONAS_keys
  /\ (select_persona_and_language G text).2 ∈ LANGUAGES.
Proof.
  unfold select_persona_and_language.
  destruct (gemini_model G) as [g|]; [|apply heuristic_valid].
  destruct (route_call g text) as [response_text|e].
  - apply parse_routing_valid.
  - apply heuristic_valid.
Qed.

(** ** The session dictionary across calls *)

Lemma add_flag_prefix (flag : string) (flags : list string) :
  flags `prefix_of` add_flag flag flags.
Proof.
  unfold add_flag. destruct (Py.mem flag flags); [done|].
  by apply prefix_app_r.
Qed.

Lemma add_flag_NoDup (flag : string) (flags : list string) :
  NoDup flags -> NoDup (add_flag flag flags).
Proof.
  unfold add_flag. destruct (Py.mem flag flags) eqn:Hm; [done|].
  intros Hnd. apply NoDup_app. split; [done|]. split; [|apply NoDup_singleton].
  intros x Hx Hx'. apply list_elem_of_singleton in Hx'. subst x.
  apply mem_elem_of in Hx. congruence.
Qed.

Lemma add_flag_subseteq (flag : string) (flags labels : list string) :
  flag ∈ labels -> flags ⊆ labels -> add_flag flag flags ⊆ labels.
Proof. unfold add_flag. destruct (Py.mem flag flags); set_solver. Qed.

Lemma update_session_flags_prefix (request : AnalyzeRequest)
    (msg_text : option string) (s : SessionState) :
  red_flags s `prefix_of` red_flags (update_session request msg_text s).
Proof.
  unfold update_session. cbn [red_flags].
  repeat match goal with
         | |- _ `prefix_of` (if ?b then add_flag ?f ?l else ?l) =>
             transitivity l;
             [|destruct b; [apply add_flag_prefix|done]]
         end.
  done.
Qed.

Lemma update_session_flags_NoDup (request : AnalyzeRequest)
    (msg_text : option string) (s : SessionState) :
  NoDup (red_flags s) -> NoDup (red_flags (update_session request msg_text s)).
Proof.
  intros Hnd. unfold update_session. cbn [red_flags].
  repeat match goal with
         | |- NoDup (if ?b then add_flag ?f ?l else ?l) =>
             cut (NoDup l);
             [destruct b; [apply add_flag_NoDup|done]|]
         end.
  done.
Qed.

Lemma update_session_flags_subseteq (request : AnalyzeRequest)
    (msg_text : option string) (s : SessionState) :
  red_flags s ⊆ RED_FLAG_LABELS ->
  red_flags (update_session request msg_text s) ⊆ RED_FLAG_LABELS.
Proof.
  intros Hsub. unfold update_session. cbn [red_flags].
  repeat match goal with
         | |- (if ?b then add_flag ?f ?l else ?l) ⊆ _ =>
             cut (l ⊆ RED_FLAG_LABELS);
             [destruct b;
              [apply add_flag_subseteq; unfold RED_FLAG_LABELS; set_solver|done]|]
         end.
  done.
Qed.

Lemma update_session_le (request : AnalyzeRequest) (msg_text : option string)
    (s : SessionState) :
  session_le s (update_session request msg_text s).
Proof.
  unfold session_le. split; [done|]. split; [done|]. split; [done|].
  split; [unfold update_session; cbn [questions_asked]; lia|].
  split; [|apply update_session_flags_prefix].
  unfold update_session. cbn [elicitation_attempts].
  destruct (Py.any_in _ _); lia.
Qed.

Global Instance session_le_preorder : PreOrder session_le.
Proof.
  split.
  - intros s. unfold session_le. repeat split; done.
  - intros s1 s2 s3 (? & ? & ? & ? & ? & ?) (? & ? & ? & ? & ? & ?).
    unfold session_le. repeat split; try congruence; try lia.
    by etransitivity.
Qed.

Section Dictionary.
Context `{SetOrder}.
Variable G : Globals.

Lemma analyze_session_le (now : Z) (request : AnalyzeRequest)
    (st : gmap string SessionState) (sid : string) (s : SessionState) :
  st !! sid = Some s ->
  exists s', (analyze G now request st).1.1 !! sid = Some s' /\ session_le s s'.
Proof.
  intros Hs. rewrite analyze_state.
  destruct (is_scam_of G request) as [[|]|e]; try (exists s; by split).
  destruct (decide (sessionId request = sid)) as [<-|Hne].
  - rewrite lookup_insert_eq, Hs. eexists. split; [done|].
    apply update_session_le.
  - rewrite lookup_insert_ne by done. exists s. by split.
Qed.

Lemma after_calls_session_le (calls : list (Z * AnalyzeRequest))
    (st : gmap string SessionState) (sid : string) (s : SessionState) :
  st !! sid = Some s ->
  exists s', after_calls G calls st !! sid = Some s' /\ session_le s s'.
Proof.
  revert st s. induction calls as [|[now request] calls IH]; intros st s Hs.
  - exists s. by split.
  - destruct (analyze_session_le now request st sid s Hs) as (s1 & Hs1 & Hle).
    destruct (IH _ s1 Hs1) as (s2 & Hs2 & Hle2).
    exists s2. split; [exact Hs2 | by etransitivity].
Qed.

(** A call changes no entry of the dictionary other than the one of its own
    conversation id. *)
Theorem analyze_touches_own_session_only (now : Z) (request : AnalyzeRequest)
    (st : gmap string SessionState) :
  delete (sessionId request) (analyze G now request st).1.1
  = delete (sessionId request) st.
Proof.
  rewrite analyze_state.
  destruct (is_scam_of G request) as [[|]|e]; try done.
  apply delete_insert_eq.
Qed.

(** Session continuity: an existing session is never removed, and its
    persona, language and start time stay as first assigned through any
    later sequence of calls, whatever those calls contain. *)
Theorem session_continuity (calls : list (Z * AnalyzeRequest))
    (st : gmap string SessionState) (sid : string) (s : SessionState) :
  st !! sid = Some s ->
  exists s', after_calls G calls st !! sid = Some s'
    /\ persona s' = persona s
    /\ language s' = language s
    /\ start_time s' = start_time s.
Proof.
  intros Hs.
  destruct (after_calls_session_le calls st sid s Hs)
    as (s' & Hs' & Hp & Hl & Ht & _).
  by exists s'.
Qed.

(** Red flags are only ever appended: through any sequence of calls the
    flags of a session remain, in order, at the front of its later list, and
    a duplicate-free list stays duplicate-free. *)
Theorem red_flags_only_grow (calls : list (Z * AnalyzeRequest))
    (st : gmap string SessionState) (sid : string) (s : SessionState) :
  st !! sid = Some s ->
  exists s', after_calls G calls st !! sid = Some s'
    /\ red_flags s `prefix_of` red_flags s'
    /\ elicitation_attempts s <= elicitation_attempts s'.
Proof.
  intros Hs.
  destruct (after_calls_session_le calls st sid s Hs)
    as (s' & Hs' & _ & _ & _ & _ & He & Hf).
  by exists s'.
Qed.

End Dictionary.

(** Session continuity at one later call on an existing session. *)
Lemma session_continuity_witness :
  let s0 := {| persona := "skeptic"; language := "hinglish"; start_time := 7;
               questions_asked := 2; red_flags := ["Urgency"];
               elicitation_attempts := 1; turn_count := 5 |} in
  exists s',
    @after_calls list_order offline
      [(9%Z, request_of "s" (Some "you won a lottery, send otp") [])]
      {["s" := s0]} !! "s" = Some s'
    /\ persona s' = persona s0
    /\ language s' = language s0
    /\ start_time s' = start_time s0.
Proof.
  intros s0.
  apply (@session_continuity list_order offline _ {["s" := s0]} "s" s0).
  vm_compute. reflexivity.
Defined.

(** Red flags at one later call on an existing session. *)
Lemma red_flags_only_grow_witness :
  let s0 := {| persona := "skeptic"; language := "hinglish"; start_time := 7;
               questions_asked := 2; red_flags := ["Urgency"];
               elicitation_attempts := 1; turn_count := 5 |} in
  exists s',
    @after_calls list_order offline
      [(9%Z, request_of "s" (Some "you won a lottery, send otp") [])]
      {["s" := s0]} !! "s" = Some s'
    /\ red_flags s0 `prefix_of` red_flags s'
    /\ elicitation_attempts s0 <= elicitation_attempts s'.
Proof.
  intros s0.
  apply (@red_flags_only_grow list_order offline _ {["s" := s0]} "s" s0).
  vm_compute. reflexivity.
Defined.

Section Reachable.
Context `{SetOrder}.
Variable G : Globals.

Lemma new_session_fields (now : Z) (msg_text : option string) :
  persona (new_session G now msg_text) ∈ PERSONAS_keys
  /\ language (new_session G now msg_text) ∈ LANGUAGES
  /\ red_flags (new_session G now msg_text) = []
  /\ start_time (new_session G now msg_text) = now.
Proof.
  unfold new_session.
  pose proof (select_valid G msg_text) as [Hp Hl].
  destruct (select_persona_and_language G msg_text) as [p l]. by cbn in *.
Qed.

Lemma update_session_wf (request : AnalyzeRequest) (msg_text : option string)
    (s : SessionState) :
  persona s ∈ PERSONAS_keys -> language s ∈ LANGUAGES ->
  NoDup (red_flags s) -> red_flags s ⊆ RED_FLAG_LABELS ->
  session_wf (update_session request msg_text s).
Proof.
  intros Hp Hl Hnd Hsub. unfold session_wf.
  split; [done|]. split; [done|].
  split; [unfold update_session; cbn [turn_count]; lia|].
  split; [by apply update_session_flags_NoDup
         |by apply update_session_flags_subseteq].
Qed.

Lemma analyze_wf (now : Z) (request : AnalyzeRequest)
    (st : gmap string SessionState) :
  map_Forall (fun _ s => session_wf s) st ->
  map_Forall (fun _ s => session_wf s) (analyze G now request st).1.1.
Proof.
  intros Hst. rewrite analyze_state.
  destruct (is_scam_of G request) as [[|]|e]; try done.
  apply map_Forall_insert_2; [|done].
  destruct (st !! sessionId request) as [s|] eqn:Hs; cbn [default from_option id].
  - destruct (Hst _ _ Hs) as (? & ? & _ & ? & ?). by apply update_session_wf.
  - destruct (new_session_fields now (effective_text (message request)))
      as (? & ? & Hf & _).
    apply update_session_wf; try done; rewrite Hf; [constructor|set_solver].
Qed.

(** Every session entry reachable from the empty dictionary has one of the
    four persona keys, a known language, a turn count of at least one and a
    duplicate-free list of red flags drawn from the four labels. *)
Theorem reachable_sessions_wf (calls : list (Z * AnalyzeRequest)) :
  map_Forall (fun _ s => session_wf s) (after_calls G calls ∅).
Proof.
  assert (forall st, map_Forall (fun _ s => session_wf s) st ->
            map_Forall (fun _ s => session_wf s) (after_calls G calls st)) as Hgen.
  { induction calls as [|[now request] calls IH]; intros st Hst; [done|].
    apply IH, analyze_wf, Hst. }
  apply Hgen, map_Forall_empty.
Qed.

(** A request whose current text is present is always answered with a
    success response; the only failure of the endpoint comes from a null
    text. *)
Theorem analyze_present_text_succeeds (now : Z) (sid snd t : string)
    (audio : option string) (ts : Z) (history : list Message)
    (st : gmap string SessionState) :
  exists st' reply task,
    analyze G now
      {| sessionId := sid;
         message := {| sender := snd; text := Some t; audioBase64 := audio;
                       timestamp := ts |};
         conversationHistory := history |} st
    = (st', Success reply, task).
Proof.
  unfold analyze, is_scam_of. rewrite !effective_text_id.
  cbn [message text conversationHistory].
  destruct (predict_scam_present G t) as [b ->].
  cbn [mbind result_bind mret result_ret].
  destruct (extract_entities_total
              (Some (conversation_text
                 {| sender := snd; text := Some t; audioBase64 := audio;
                    timestamp := ts |} history))) as [d Hd].
  cbn [sender audioBase64 timestamp]. rewrite Hd.
  destruct (b || _); by eexists _, _, _.
Qed.

(** The gate looks neither at the clock nor at the session dictionary: a
    request that produces a report produces one again whenever it is
    repeated, so reports are not deduplicated. *)
Theorem report_gate_ignores_state (now later now' later' : Z)
    (request : AnalyzeRequest) (st st' : gmap string SessionState) :
  is_Some (report_of G now later request st)
  <-> is_Some (report_of G now' later' request st').
Proof.
  destruct (extract_entities_total (aggregated_text request)) as [d Hd].
  by rewrite !(report_of_gate G _ _ request _ d Hd).
Qed.

End Reachable.

(** ** The callback payload *)

Section Payload.
Context `{SetOrder}.

(** The fields of an emitted payload. *)
Lemma callback_payload_fields (later : Z) (st : gmap string SessionState)
    (task : CallbackTask) (p : CallbackPayload) :
  check_and_send_callback later st task = Some p ->
  exists aggregated,
    extract_entities
      (Some (conversation_text (task_current_msg task) (task_history task)))
    = Ok aggregated
    /\ cb_sessionId p = task_session_id task
    /\ cb_scamDetected p = true
    /\ cb_totalMessagesExchanged p = S (length (task_history task))
    /\ cb_engagementDurationSeconds p
       = (let elapsed :=
            (later - from_option start_time later
                       (st !! task_session_id task))%Z in
          if (elapsed <? 180)%Z
          then (180 + Z.of_nat (S (length (task_history task))) * 5)%Z
          else elapsed)
    /\ cb_extractedIntelligence p
       = list_to_map (map (fun k => (k, get_list aggregated k)) REPORTED_KEYS)
    /\ cb_scamType p = infer_scam_type (text (task_current_msg task))
    /\ cb_confidenceLevel p
       = (if (0 <? entity_count (task_entities task))%nat
          then Nat.min 95 (70 + entity_count (task_entities task) * 5)
          else 85%nat).
Proof.
  unfold check_and_send_callback. cbv zeta.
  destruct (task_scam_detected task && _); [|done].
  destruct (extract_entities _) as [aggregated|e]; [|done].
  intros [= <-]. exists aggregated. cbn. repeat split; reflexivity.
Qed.

(** The reported engagement duration is never below 180 seconds: a shorter
    measured time is replaced by 180 plus five seconds per message. *)
Theorem payload_duration_floor (later : Z) (st : gmap string SessionState)
    (task : CallbackTask) (p : CallbackPayload) :
  check_and_send_callback later st task = Some p ->
  (180 <= cb_engagementDurationSeconds p)%Z
  /\ ((later - from_option start_time later (st !! task_session_id task)
       < 180)%Z ->
      cb_engagementDurationSeconds p
      = (180 + 5 * Z.of_nat (cb_totalMessagesExchanged p))%Z).
Proof.
  intros Hp.
  destruct (callback_payload_fields _ _ _ _ Hp)
    as (_ & _ & _ & _ & Htot & Hd & _).
  rewrite Hd, Htot. cbv zeta.
  destruct (_ <? 180)%Z eqn:Hlt; [apply Z.ltb_lt in Hlt|apply Z.ltb_ge in Hlt];
    split; lia.
Qed.

(** The reported confidence, in hundredths, lies between 75 and 95; it is 85
    when the per-request extraction is empty and 95 from five entities on. *)
Theorem payload_confidence_bounds (later : Z) (st : gmap string SessionState)
    (task : CallbackTask) (p : CallbackPayload) :
  check_and_send_callback later st task = Some p ->
  75 <= cb_confidenceLevel p <= 95
  /\ (entity_count (task_entities task) = 0 -> cb_confidenceLevel p = 85)
  /\ (5 <= entity_count (task_entities task) -> cb_confidenceLevel p = 95).
Proof.
  intros Hp.
  destruct (callback_payload_fields _ _ _ _ Hp)
    as (_ & _ & _ & _ & _ & _ & _ & _ & Hc).
  rewrite Hc.
  destruct (0 <? entity_count (task_entities task))%nat eqn:Hpos;
    [apply Nat.ltb_lt in Hpos|apply Nat.ltb_ge in Hpos]; lia.
Qed.

(** The payload carries exactly the ten reported categories, each with the
    list found by re-running the extraction over the whole conversation
    (empty for an empty conversation text); the national-id categories and
    the suspicious keywords are never sent. *)
Theorem payload_intelligence_keys (later : Z) (st : gmap string SessionState)
    (task : CallbackTask) (p : CallbackPayload) :
  check_and_send_callback later st task = Some p ->
  exists aggregated,
    extract_entities
      (Some (conversation_text (task_current_msg task) (task_history task)))
    = Ok aggregated
    /\ dom (cb_extractedIntelligence p) = list_to_set REPORTED_KEYS
    /\ forall k, cb_extractedIntelligence p !! k
                 = if bool_decide (k ∈ REPORTED_KEYS)
                   then Some (get_list aggregated k) else None.
Proof.
  intros Hp.
  destruct (callback_payload_fields _ _ _ _ Hp)
    as (aggregated & Hagg & _ & _ & _ & _ & Hi & _).
  exists aggregated. split; [done|]. rewrite Hi.
  assert (forall k,
            (list_to_map (map (fun k => (k, get_list aggregated k))
                              REPORTED_KEYS) : gmap string (list string)) !! k
            = if bool_decide (k ∈ REPORTED_KEYS)
              then Some (get_list aggregated k) else None) as Hlook.
  { intros k. case_bool_decide as Hk.
    - apply elem_of_list_to_map_1.
      + rewrite <- list_fmap_compose. cbn. compute_done.
      + apply list_elem_of_fmap. by exists k.
    - apply not_elem_of_list_to_map_1.
      rewrite <- list_fmap_compose. intros Hin.
      apply list_elem_of_fmap in Hin as (k' & -> & ?). done. }
  split; [|done].
  apply set_eq. intros k. rewrite elem_of_dom, Hlook, elem_of_list_to_set.
  case_bool_decide; split; try done; try (by intros [? ?]); eauto.
Qed.

End Payload.

(** The duration floor on the payload of a one-message conversation with a
    link. *)
Lemma payload_duration_floor_witness :
  exists p,
    @check_and_send_callback list_order 10 ∅ link_task = Some p
    /\ (180 <= cb_engagementDurationSeconds p)%Z.
Proof.
  eexists. split; [vm_compute; reflexivity|].
  refine (proj1 (@payload_duration_floor list_order 10 ∅ link_task _ _)).
  vm_compute. reflexivity.
Defined.

(** The confidence bounds on the same payload. *)
Lemma payload_confidence_bounds_witness :
  exists p,
    @check_and_send_callback list_order 10 ∅ link_task = Some p
    /\ 75 <= cb_confidenceLevel p <= 95.
Proof.
  eexists. split; [vm_compute; reflexivity|].
  refine (proj1 (@payload_confidence_bounds list_order 10 ∅ link_task _ _)).
  vm_compute. reflexivity.
Defined.

(** The reported categories of the same payload. *)
Lemma payload_intelligence_keys_witness :
  exists p,
    @check_and_send_callback list_order 10 ∅ link_task = Some p
    /\ dom (cb_extractedIntelligence p) = list_to_set REPORTED_KEYS
    /\ cb_extractedIntelligence p !! "suspiciousKeywords" = None.
Proof.
  eexists. split; [vm_compute; reflexivity|].
  destruct (@payload_intelligence_keys list_order 10 ∅ link_task _
              ltac:(vm_compute; reflexivity)) as (agg & _ & Hdom & Hk).
  split; [exact Hdom|]. rewrite Hk. reflexivity.
Defined.

(** ** More on the extraction result *)

Lemma bank_loop_elem (bs acc cp : list string) (seen : gset string)
    (b : string) :
  b ∈ bank_loop bs acc cp seen ->
  b ∈ acc
  \/ (b ∈ bs /\ String.length b <> 12 /\ is_phone b cp = false /\ b ∉ seen).
Proof.
  revert acc. induction bs as [|x bs IH]; intros acc; cbn [bank_loop].
  - by left.
  - destruct (String.length x =? 12)%nat eqn:Hlen.
    { intros Hb. destruct (IH _ Hb) as [?|(? & ?)]; [by left|right].
      split; [set_solver|done]. }
    destruct (negb (is_phone x cp) && negb (bool_decide (x ∈ seen))) eqn:Hc.
    + intros Hb. destruct (IH _ Hb) as [Hin|(? & ?)].
      * apply elem_of_app in Hin as [?|Hin]; [by left|right].
        apply list_elem_of_singleton in Hin. subst x.
        apply andb_true_iff in Hc as [Hp Hs].
        apply negb_true_iff in Hp.
        apply negb_true_iff, bool_decide_eq_false in Hs.
        apply Nat.eqb_neq in Hlen. split; [set_solver|done].
      * right. split; [set_solver|done].
    + intros Hb. destruct (IH _ Hb) as [?|(? & ?)]; [by left|right].
      split; [set_solver|done].
Qed.

Lemma is_phone_false (b : string) (cp : list string) :
  is_phone b cp = false ->
  Forall (fun p => Py.contains b (Py.digits_of p) = false
                   /\ Py.contains (Py.digits_of p) b = false) cp.
Proof.
  unfold is_phone. intros Hf. apply Forall_forall. intros p Hp.
  apply orb_false_iff.
  destruct (_ || _) eqn:Ho; [|done].
  assert (existsb (fun phone =>
            Py.contains b (Py.digits_of phone)
            || Py.contains (Py.digits_of phone) b) cp = true) as Ht.
  { apply existsb_exists. exists p. split; [by apply list_elem_of_In|done]. }
  congruence.
Qed.

Section Banks.
Context `{SetOrder}.

(** No reported bank account has twelve digits, and none contains or is
    contained in the digits of a reported phone number, or equals the
    normal form of one. *)
Theorem bank_accounts_exclude_phones (text : option string) :
  exists d, extract_entities text = Ok d
    /\ Forall (fun b =>
         String.length b <> 12
         /\ Forall (fun p => Py.contains b (Py.digits_of p) = false
                             /\ Py.contains (Py.digits_of p) b = false
                             /\ normalized p <> b)
                   (get_list d "phoneNumbers"))
       (get_list d "bankAccounts").
Proof.
  destruct text as [[|c s]|]; try (exists ∅; split; [done|constructor]).
  destruct (extract_entities_nonempty c s) as (vcc & cp & seen & _ & Hph & ->).
  eexists. split; [done|].
  assert (phones_distinct cp seen) as [_ Hseen].
  { apply (phone_loop_distinct _ _ _ _ _ Hph). split; constructor. }
  assert (get_list (entity_dict (String c s) vcc cp seen) "phoneNumbers"
          = sorted (set_list cp)) as -> by done.
  assert (get_list (entity_dict (String c s) vcc cp seen) "bankAccounts"
          = sorted (set_list
              (bank_loop (Re.findall false Pat.bank_account_pattern (String c s))
                 [] cp seen))) as -> by done.
  apply Forall_forall. intros b Hb. rewrite sorted_set_list_elem in Hb.
  apply bank_loop_elem in Hb as [Hb|(_ & Hlen & Hp & Hs)]; [inversion Hb|].
  split; [done|].
  apply Forall_forall. intros p Hin. rewrite sorted_set_list_elem in Hin.
  pose proof (is_phone_false b cp Hp) as Hall.
  rewrite Forall_forall in Hall, Hseen.
  destruct (Hall p Hin) as [? ?]. destruct (Hseen p Hin) as [Hn _].
  repeat split; try done. intros Heq. apply Hs. by rewrite <- Heq.
Qed.

Lemma keywords_exact (c : ascii) (s : string) :
  exists d, extract_entities (Some (String c s)) = Ok d
    /\ NoDup (get_list d "suspiciousKeywords")
    /\ forall w, w ∈ get_list d "suspiciousKeywords"
         <-> w ∈ suspicious_keywords_list
             /\ Py.contains w (Py.lower (String c s)) = true.
Proof.
  destruct (extract_entities_nonempty c s) as (vcc & cp & seen & _ & _ & ->).
  eexists. split; [done|].
  assert (get_list (entity_dict (String c s) vcc cp seen) "suspiciousKeywords"
          = set_list (filter (fun word =>
                                Py.contains word (Py.lower (String c s)) = true)
                             suspicious_keywords_list)) as -> by done.
  split; [apply set_list_NoDup|].
  intros w. rewrite set_list_elem, list_elem_of_filter. tauto.
Qed.

(** The suspicious keywords of a non-empty text are exactly the lexicon
    words that occur in the lower-cased text, each listed once. *)
Theorem suspicious_keywords_exact (c : ascii) (s : string) :
  exists d, extract_entities (Some (String c s)) = Ok d
    /\ NoDup (get_list d "suspiciousKeywords")
    /\ forall w, w ∈ get_list d "suspiciousKeywords"
         <-> w ∈ suspicious_keywords_list
             /\ Py.contains w (Py.lower (String c s)) = true.
Proof.
  destruct (extract_entities_nonempty c s) as (vcc & cp & seen & _ & _ & ->).
  eexists. split; [done|].
  assert (get_list (entity_dict (String c s) vcc cp seen) "suspiciousKeywords"
          = set_list (filter (fun word =>
                                Py.contains word (Py.lower (String c s)) = true)
                             suspicious_keywords_list)) as Hk by done.
  rewrite Hk. split; [apply set_list_NoDup|].
  intros w. rewrite set_list_elem, list_elem_of_filter.
  split; [intros [? ?]|intros [? ?]]; by split.
Qed.

End Banks.

(** Every category other than [suspiciousKeywords] is the same whatever
    order Python enumerates its sets in. *)
Theorem extraction_order_independent (H1 H2 : SetOrder)
    (text : option string) :
  exists d1 d2,
    @extract_entities H1 text = Ok d1
    /\ @extract_entities H2 text = Ok d2
    /\ forall k, k <> "suspiciousKeywords" -> d1 !! k = d2 !! k.
Proof.
  destruct (@extract_entities_total H1 text) as [d1 Hd1].
  destruct (@extract_entities_total H2 text) as [d2 Hd2].
  exists d1, d2. split; [done|]. split; [done|]. intros k Hk.
  rewrite (@extract_entities_lookup H1 text d1 k Hd1 Hk).
  by rewrite (@extract_entities_lookup H2 text d2 k Hd2 Hk).
Qed.

(** ** What the matcher reports *)

















Section BankDigits.
Context `{SetOrder}.


End BankDigits.

(** ** Case-insensitive literals *)




Lemma lower_string_of_list (w : list ascii) :
  Py.lower (string_of_list_ascii w)
  = string_of_list_ascii (map Py.lower_char w).
Proof. induction w as [|c w IH]; [done|]. cbn. by rewrite IH. Qed.


Lemma lower_append (a b : string) :
  Py.lower (a +:+ b) = Py.lower a +:+ Py.lower b.
Proof.
  induction a as [|c a IH]; [done|].
  change (String c a +:+ b) with (String c (a +:+ b)).
  cbn [Py.lower]. rewrite IH. reflexivity.
Qed.






Section Links.
Context `{SetOrder}.


End Links.

(** ** Payment handles *)





Section Handles.
Context `{SetOrder}.


End Handles.

(** ** The offline reply *)

(** The offline reply names exactly the first two kinds of information
    still missing, in the order bank account, UPI ID, link, and asks for
    "details" only when nothing is missing. *)
Theorem offline_reply_asks_for_missing (known_entities : gmap string (list string))
    (persona_key language : string) :
  let reply := _offline_agent_reply known_entities persona_key language in
  let bank := Py.truthy_list (known_entities !! "bankAccounts") in
  let upi := Py.truthy_list (known_entities !! "upiIds") in
  let link := Py.truthy_list (known_entities !! "phishingLinks") in
  Py.contains "bank account" reply = negb bank
  /\ Py.contains "UPI ID" reply = negb upi
  /\ Py.contains "link" reply = negb link && (bank || upi)
  /\ Py.contains "details" reply = bank && upi && link.
Proof.
  unfold _offline_agent_reply.
  destruct (Py.truthy_list (known_entities !! "bankAccounts"));
    destruct (Py.truthy_list (known_entities !! "upiIds"));
    destruct (Py.truthy_list (known_entities !! "phishingLinks"));
    destruct (String.eqb language "hinglish");
    destruct (String.eqb persona_key "student");
    destruct (String.eqb persona_key "skeptic");
    destruct (String.eqb persona_key "parent");
    vm_compute; repeat split; reflexivity.
Qed.

Lemma offline_reply_not_disengagement (known_entities : gmap string (list string))
    (persona_key language : string) :
  String.eqb (_offline_agent_reply known_entities persona_key language)
             "I don't think I am interested. Thank you." = false.
Proof.
  unfold _offline_agent_reply.
  destruct (Py.truthy_list (known_entities !! "bankAccounts"));
    destruct (Py.truthy_list (known_entities !! "upiIds"));
    destruct (Py.truthy_list (known_entities !! "phishingLinks"));
    destruct (String.eqb language "hinglish");
    destruct (String.eqb persona_key "student");
    destruct (String.eqb persona_key "skeptic");
    destruct (String.eqb persona_key "parent");
    vm_compute; reflexivity.
Qed.

Section Offline.
Context `{SetOrder}.
Variable G : Globals.

(** Without a Gemini client the reply tells the two outcomes apart: the
    fixed disengagement text is returned exactly when no callback is
    scheduled, that is, when the conversation is not treated as scam-like;
    and a failing call schedules nothing. *)
Theorem offline_reply_reveals_outcome (now : Z) (request : AnalyzeRequest)
    (st : gmap string SessionState) :
  match analyze (without_llm G) now request st with
  | (_, Success reply, task) =>
      String.eqb reply "I don't think I am interested. Thank you." = true
      <-> task = None
  | (_, Http500 _, task) => task = None
  end.
Proof.
  unfold analyze.
  destruct (is_scam_of (without_llm G) request) as [[|]|e]; [| |done].
  - destruct (extract_entities _) as [d|e]; [|done].
    unfold generate_agent_reply. cbn [without_llm gemini_model].
    rewrite offline_reply_not_disengagement. split; done.
  - destruct (extract_entities _) as [d|e]; [|done]. split; done.
Qed.

End Offline.

(** ** Keywords under surrounding text *)

Lemma prefix_mono (k x b : string) :
  String.prefix k x = true -> String.prefix k (x +:+ b) = true.
Proof.
  revert x. induction k as [|c k IH]; intros [|c' x]; cbn [String.prefix].
  - by destruct ("" +:+ b).
  - done.
  - done.
  - change (String c' x +:+ b) with (String c' (x +:+ b)). cbn [String.prefix].
    destruct (ascii_dec c c'); [apply IH|done].
Qed.

Lemma contains_mono_r (k t b : string) :
  Py.contains k t = true -> Py.contains k (t +:+ b) = true.
Proof.
  induction t as [|c t IH]; cbn [Py.contains]; rewrite !orb_true_iff.
  - intros [Hp|?]; [|done].
    assert (String.prefix k ("" +:+ b) = true) as Hp' by by apply prefix_mono.
    change ("" +:+ b) with b in *. destruct b; cbn [Py.contains];
      rewrite Hp'; done.
  - intros [Hp|Hc].
    + apply (prefix_mono k _ b) in Hp.
      change (String c t +:+ b) with (String c (t +:+ b)) in *.
      cbn [Py.contains]. by rewrite Hp.
    + change (String c t +:+ b) with (String c (t +:+ b)).
      cbn [Py.contains]. rewrite (IH Hc). apply orb_true_r.
Qed.

Lemma contains_mono_l (k a t : string) :
  Py.contains k t = true -> Py.contains k (a +:+ t) = true.
Proof.
  intros Hc. induction a as [|c a IH]; [done|].
  change (String c a +:+ t) with (String c (a +:+ t)).
  cbn [Py.contains]. rewrite IH. apply orb_true_r.
Qed.

Lemma any_in_embed (ks : list string) (a t b : string) :
  Py.any_in ks (Py.lower t) = true ->
  Py.any_in ks (Py.lower (a +:+ t +:+ b)) = true.
Proof.
  unfold Py.any_in. rewrite !existsb_exists.
  intros (k & Hk & Hc). exists k. split; [done|].
  rewrite !lower_append. by apply contains_mono_l, contains_mono_r.
Qed.

(** A text that the keyword lexicon flags stays flagged, whatever is put
    before and after it and whatever classifier is loaded. *)
Theorem predict_scam_embedding (G : Globals) (a t b : string) :
  predict_scam offline (Some t) = Ok true ->
  predict_scam G (Some (a +:+ t +:+ b)) = Ok true.
Proof.
  unfold predict_scam. cbn [ml_tier offline scam_classifier keyword_tier].
  intros Hk.
  assert (Py.any_in scam_keywords (Py.lower t) = true) as Hk' by congruence.
  destruct (ml_tier G _); [done|].
  by rewrite (any_in_embed _ a t b Hk').
Qed.

(** A flagged sentence inside a longer message. *)
Lemma predict_scam_embedding_witness :
  predict_scam (gemini_answering "x")
    (Some ("Dear customer, " +:+ "your KYC is pending" +:+ ". Regards"))
  = Ok true.
Proof.
  apply (predict_scam_embedding (gemini_answering "x")
           "Dear customer, " "your KYC is pending" ". Regards").
  reflexivity.
Defined.

(** ** The client address logged by the receipt page *)











(** ** Red flags recorded by a turn *)

Lemma add_flag_elem (flag : string) (flags : list string) :
  flag ∈ add_flag flag flags.
Proof.
  unfold add_flag. destruct (Py.mem flag flags) eqn:Hm.
  - by apply mem_elem_of.
  - set_solver.
Qed.

Lemma add_flag_keeps (flag other : string) (flags : list string) :
  other ∈ flags -> other ∈ add_flag flag flags.
Proof. unfold add_flag. destruct (Py.mem flag flags); set_solver. Qed.

(** After the per-turn update the session carries the flag of every trigger
    present in the current message: urgency wording, OTP or PIN wording,
    link-like text, and an unsolicited contact while the turn count is at
    most two; flags already present are kept. *)
Theorem red_flags_recorded (request : AnalyzeRequest)
    (msg_text : option string) (s : SessionState) :
  let msg_lower := Py.lower (Py.or_empty msg_text) in
  let flags := red_flags (update_session request msg_text s) in
  (Py.any_in ["urgent"; "immediately"] msg_lower = true -> "Urgency" ∈ flags)
  /\ (Py.any_in ["otp"; "pin"] msg_lower = true -> "OTP Request" ∈ flags)
  /\ (Py.any_in ["http"; "link"; ".com"] msg_lower = true ->
      "Suspicious Link" ∈ flags)
  /\ (length (conversationHistory request) <= 1 ->
      "Unsolicited Contact" ∈ flags)
  /\ (forall flag, flag ∈ red_flags s -> flag ∈ flags).
Proof.
  intros msg_lower flags. subst flags. unfold update_session.
  fold msg_lower. cbn [red_flags]. unfold Py.any_in. cbn [existsb].
  rewrite !orb_false_r.
  set (c1 := Py.contains "urgent" msg_lower || Py.contains "immediately" msg_lower).
  set (c2 := Py.contains "otp" msg_lower || Py.contains "pin" msg_lower).
  set (c3 := Py.contains "http" msg_lower || Py.contains "link" msg_lower
             || Py.contains ".com" msg_lower).
  replace (Py.contains "http" msg_lower
           || (Py.contains "link" msg_lower || Py.contains ".com" msg_lower))
    with c3 by (unfold c3; by rewrite orb_assoc).
  set (c4 := (S (length (conversationHistory request)) <=? 2)%nat).
  assert (length (conversationHistory request) <= 1 -> c4 = true) as H4.
  { intros Hl. apply Nat.leb_le. lia. }
  clearbody c1 c2 c3 c4. repeat split.
  - intros ->. destruct c2, c3, c4;
      repeat (first [apply add_flag_elem | apply add_flag_keeps]).
  - intros ->. destruct c1, c3, c4;
      repeat (first [apply add_flag_elem | apply add_flag_keeps]).
  - intros ->. destruct c1, c2, c4;
      repeat (first [apply add_flag_elem | apply add_flag_keeps]).
  - intros Hl. rewrite (H4 Hl). apply add_flag_elem.
  - intros flag Hf. destruct c1, c2, c3, c4;
      repeat apply add_flag_keeps; exact Hf.
Qed.

(** ** Keywords across the conversation *)

Lemma join_occurrence (sep x : string) (xs : list string) (i : nat) :
  xs !! i = Some x -> exists a b, Py.join sep xs = a +:+ x +:+ b.
Proof.
  revert i. induction xs as [|y xs IH]; intros [|i] Hi; try done.
  - injection Hi as ->. destruct xs as [|z xs].
    + exists "", "". cbn [Py.join].
      change ("" +:+ x +:+ "") with (x +:+ "").
      induction x as [|c x IHx]; [done|].
      change (String c x +:+ "") with (String c (x +:+ "")). by rewrite <- IHx.
    + exists "", (sep +:+ Py.join sep (z :: xs)). done.
  - cbn in Hi. destruct (IH _ Hi) as (a & b & Heq).
    destruct xs as [|z xs]; [done|].
    exists (y +:+ sep +:+ a), b.
    change (Py.join sep (y :: z :: xs))
      with (y +:+ sep +:+ Py.join sep (z :: xs)).
    rewrite Heq.
    assert (forall p q r : string, (p +:+ q) +:+ r = p +:+ q +:+ r) as Hassoc.
    { intros p q r. induction p as [|c p IHp]; [done|].
      change (String c p +:+ q) with (String c (p +:+ q)).
      change (String c (p +:+ q) +:+ r) with (String c ((p +:+ q) +:+ r)).
      by rewrite IHp. }
    by rewrite !Hassoc.
Qed.

Section Aggregation.
Context `{SetOrder}.

(** No suspicious keyword of an earlier turn is lost: a lexicon word that
    occurs, in any letter case, in the current message or in any message of
    the history is among the suspicious keywords of the extraction over the
    whole conversation. *)
Theorem aggregated_keywords_cover_history (current : Message)
    (history : list Message) (i : nat) (m : Message) (w : string) :
  (current :: history) !! i = Some m ->
  w ∈ suspicious_keywords_list ->
  Py.contains w (Py.lower (Py.or_empty (text m))) = true ->
  exists d,
    extract_entities (Some (conversation_text current history)) = Ok d
    /\ w ∈ get_list d "suspiciousKeywords".
Proof.
  intros Hi Hw Hc.
  assert (Py.contains w (Py.lower (conversation_text current history)) = true)
    as Hall.
  { unfold conversation_text. destruct i as [|i].
    - injection Hi as <-. rewrite lower_append. by apply contains_mono_r.
    - change (history !! i = Some m) in Hi.
      assert (map (fun m => Py.or_empty (text m)) history !! i
              = Some (Py.or_empty (text m))) as Hj.
      { change (((fun m => Py.or_empty (text m)) <$> history) !! i
                = Some (Py.or_empty (text m))).
        rewrite list_lookup_fmap, Hi. reflexivity. }
      destruct (join_occurrence " " _ _ _ Hj) as (a & b & ->).
      rewrite !lower_append.
      by apply contains_mono_l, contains_mono_l, contains_mono_l,
               contains_mono_r. }
  destruct (conversation_text current history) as [|c s] eqn:Ht.
  { exfalso. revert Ht. unfold conversation_text.
    by destruct (Py.or_empty (text current)). }
  destruct (keywords_exact c s) as (d & Hd & _ & Hk).
  exists d. split; [done|]. by apply Hk.
Qed.

End Aggregation.

(** A keyword of the second history message. *)
Lemma aggregated_keywords_cover_history_witness :
  exists d,
    @extract_entities list_order
      (Some (conversation_text (scammer_says (Some "ok"))
               [scammer_says (Some "hello"); scammer_says (Some "Share the OTP")]))
    = Ok d
    /\ "otp" ∈ get_list d "suspiciousKeywords".
Proof.
  apply (@aggregated_keywords_cover_history list_order
           (scammer_says (Some "ok"))
           [scammer_says (Some "hello"); scammer_says (Some "Share the OTP")]
           2 (scammer_says (Some "Share the OTP")) "otp").
  - reflexivity.
  - apply (bool_decide_unpack _). vm_compute. reflexivity.
  - reflexivity.
Defined.

(** The disengagement reply to a harmless first message. *)
Lemma disengagement_only_without_history_witness :
  conversationHistory (request_of "s" (Some "hello there") []) = []
  /\ predict_scam offline (text (message (request_of "s" (Some "hello there") [])))
     = Ok false
  /\ "I don't think I am interested. Thank you."
     = "I don't think I am interested. Thank you."
  /\ (∅ : gmap string SessionState) = ∅.
Proof.
  apply (@disengagement_only_without_history list_order offline 0
           (request_of "s" (Some "hello there") []) ∅ ∅
           "I don't think I am interested. Thank you.").
  vm_compute. reflexivity.
Defined.
